(** * The asynchronous task scheduler of ai-agency-platform

    A shallow embedding of
    [ai-agency-platform/automation/scheduler/task_scheduler.py]
    (classes [Task] and [TaskScheduler]) and the properties of its
    specification.

    Conventions of the embedding.
    - Instants ([datetime] values, and the floats returned by
      [datetime.timestamp()]) are integers counting seconds; a
      [timedelta(seconds=n)] is the integer [n].
    - A Python [dict] is an insertion-ordered association list with unique
      keys: assignment replaces in place or appends.
    - [Task] objects are mutable and shared between [self.tasks] and the
      coroutines that execute them, so the scheduler state carries an
      object store and refers to tasks by address.
    - asyncio is cooperative: the code between two suspension points runs
      atomically.  A coroutine running [_execute_task] has two such
      segments (before and after [await asyncio.wait_for(...)]); one
      iteration of the [_worker] loop is one segment.
    - The storage file is the JSON document itself (a dict of dicts); file
      operations succeed, and [aiohttp] is there to post callbacks.
    - [asyncio.CancelledError] is not an [Exception] (Python 3.8 and
      later): a cancelled await skips both [except] clauses.  How an
      awaited handler call ends is decided by the environment, so every
      outcome is possible at every end of a supervisor. *)

From Stdlib Require Import ZArith List String Ascii Bool Lia Permutation.
From Stdlib Require Import DecimalString DecimalZ.
Import ListNotations.

Open Scope string_scope.
Open Scope Z_scope.

(** ** Python values that JSON can carry *)

#[warnings="-register-all"]
Inductive pyval : Type :=
| PNone
| PBool (b : bool)
| PInt (z : Z)
| PStr (s : string)
| PList (l : list pyval)
| PDict (d : list (string * pyval)).

(** Truth value of an object, as tested by [if x:]. *)
Definition truthy (v : pyval) : bool :=
  match v with
  | PNone => false
  | PBool b => b
  | PInt z => negb (z =? 0)
  | PStr s => negb (s =? "")%string
  | PList l => match l with [] => false | _ => true end
  | PDict d => match d with [] => false | _ => true end
  end.

(** [str(n)] for an integer. *)
Definition str_of_int (z : Z) : string := NilZero.string_of_int (Z.to_int z).

(** ** Dictionaries *)

Section Dict.
Context {V : Type}.

Definition dict := list (string * V).

(** [d.get(k)] *)
Fixpoint dict_get (d : dict) (k : string) : option V :=
  match d with
  | [] => None
  | (k', v) :: d' => if (k' =? k)%string then Some v else dict_get d' k
  end.

(** [k in d] *)
Definition dict_mem (d : dict) (k : string) : bool :=
  match dict_get d k with Some _ => true | None => false end.

(** [d[k] = v] *)
Fixpoint dict_set (d : dict) (k : string) (v : V) : dict :=
  match d with
  | [] => [(k, v)]
  | (k', v') :: d' =>
      if (k' =? k)%string then (k, v) :: d' else (k', v') :: dict_set d' k v
  end.

(** [del d[k]] (used only under [if k in d]) *)
Fixpoint dict_del (d : dict) (k : string) : dict :=
  match d with
  | [] => []
  | (k', v') :: d' =>
      if (k' =? k)%string then d' else (k', v') :: dict_del d' k
  end.

(** [d.get(k, dflt)] *)
Definition dict_get_or (d : dict) (k : string) (dflt : V) : V :=
  match dict_get d k with Some v => v | None => dflt end.

Definition dict_keys (d : dict) : list string := map fst d.
End Dict.

Arguments dict V : clear implicits.

(** ** Lists used as an object store *)

Fixpoint list_update {A : Type} (l : list A) (n : nat) (f : A -> A) : list A :=
  match l, n with
  | [], _ => []
  | x :: l', O => f x :: l'
  | x :: l', S n' => x :: list_update l' n' f
  end.

(** ** The task record *)

Record Task : Type := mkTask {
  task_id : string;
  task_type : string;
  params : pyval;
  schedule_time : Z;
  priority : Z;
  max_retries : Z;
  retry_delay : Z;
  timeout : Z;
  callback_url : option string;
  status : string;
  retry_count : Z;
  start_time : option Z;
  end_time : option Z;
  result : pyval;
  error : option string
}.

Definition Scheduled : string := "scheduled".
Definition Running : string := "running".
Definition Completed : string := "completed".
Definition Failed : string := "failed".
Definition Cancelled : string := "cancelled".

(** [Task.__init__] *)
Definition new_Task (id ty : string) (p : pyval) (when : Z)
    (prio maxr delay tmo : Z) (cb : option string) : Task :=
  {| task_id := id; task_type := ty; params := p; schedule_time := when;
     priority := prio; max_retries := maxr; retry_delay := delay;
     timeout := tmo; callback_url := cb;
     status := Scheduled; retry_count := 0;
     start_time := None; end_time := None; result := PNone; error := None |}.

(** Attribute assignments. *)
Definition set_status (v : string) (t : Task) : Task :=
  mkTask (task_id t) (task_type t) (params t) (schedule_time t) (priority t)
    (max_retries t) (retry_delay t) (timeout t) (callback_url t)
    v (retry_count t) (start_time t) (end_time t) (result t) (error t).

Definition set_error (v : option string) (t : Task) : Task :=
  mkTask (task_id t) (task_type t) (params t) (schedule_time t) (priority t)
    (max_retries t) (retry_delay t) (timeout t) (callback_url t)
    (status t) (retry_count t) (start_time t) (end_time t) (result t) v.

Definition set_result (v : pyval) (t : Task) : Task :=
  mkTask (task_id t) (task_type t) (params t) (schedule_time t) (priority t)
    (max_retries t) (retry_delay t) (timeout t) (callback_url t)
    (status t) (retry_count t) (start_time t) (end_time t) v (error t).

Definition set_start_time (v : option Z) (t : Task) : Task :=
  mkTask (task_id t) (task_type t) (params t) (schedule_time t) (priority t)
    (max_retries t) (retry_delay t) (timeout t) (callback_url t)
    (status t) (retry_count t) v (end_time t) (result t) (error t).

Definition set_end_time (v : option Z) (t : Task) : Task :=
  mkTask (task_id t) (task_type t) (params t) (schedule_time t) (priority t)
    (max_retries t) (retry_delay t) (timeout t) (callback_url t)
    (status t) (retry_count t) (start_time t) v (result t) (error t).

Definition set_retry_count (v : Z) (t : Task) : Task :=
  mkTask (task_id t) (task_type t) (params t) (schedule_time t) (priority t)
    (max_retries t) (retry_delay t) (timeout t) (callback_url t)
    (status t) v (start_time t) (end_time t) (result t) (error t).

Definition set_schedule_time (v : Z) (t : Task) : Task :=
  mkTask (task_id t) (task_type t) (params t) v (priority t)
    (max_retries t) (retry_delay t) (timeout t) (callback_url t)
    (status t) (retry_count t) (start_time t) (end_time t) (result t) (error t).

(** ** The datetime text format

    [datetime.isoformat] and [datetime.fromisoformat] belong to the Python
    library; the scheduler relies on the second inverting the first, and on
    the text never being empty. *)

Class IsoCodec : Type := {
  isoformat : Z -> string;
  fromisoformat : string -> option Z
}.

Class IsoCodecLaws (codec : IsoCodec) : Prop := {
  fromisoformat_isoformat : forall d, fromisoformat (isoformat d) = Some d;
  isoformat_nonempty : forall d, isoformat d <> ""
}.

(** A codec to run the model with: the instant in decimal digits. *)
Definition epoch_codec : IsoCodec :=
  {| isoformat := str_of_int;
     fromisoformat := fun s => option_map Z.of_int (NilZero.int_of_string s) |}.

(** ** Serialization of a task *)

Definition opt_bind {A B : Type} (o : option A) (f : A -> option B) : option B :=
  match o with Some a => f a | None => None end.

Notation "x <- e ;; k" := (opt_bind e (fun x => k))
  (at level 61, e at next level, right associativity).

Definition as_str (v : pyval) : option string :=
  match v with PStr s => Some s | _ => None end.

Definition as_int (v : pyval) : option Z :=
  match v with PInt z => Some z | _ => None end.

Definition as_opt_str (v : pyval) : option (option string) :=
  match v with PNone => Some None | PStr s => Some (Some s) | _ => None end.

Definition of_opt_str (o : option string) : pyval :=
  match o with Some s => PStr s | None => PNone end.

Section Serialization.
Context {codec : IsoCodec}.

Definition of_opt_time (o : option Z) : pyval :=
  match o with Some d => PStr (isoformat d) | None => PNone end.

(** [Task.to_dict] *)
Definition to_dict (t : Task) : dict pyval :=
  [ ("task_id", PStr (task_id t));
    ("task_type", PStr (task_type t));
    ("params", params t);
    ("schedule_time", PStr (isoformat (schedule_time t)));
    ("priority", PInt (priority t));
    ("max_retries", PInt (max_retries t));
    ("retry_delay", PInt (retry_delay t));
    ("timeout", PInt (timeout t));
    ("callback_url", of_opt_str (callback_url t));
    ("status", PStr (status t));
    ("retry_count", PInt (retry_count t));
    ("start_time", of_opt_time (start_time t));
    ("end_time", of_opt_time (end_time t));
    ("result", result t);
    ("error", of_opt_str (error t)) ].

(** [if data.get(k): ... = datetime.fromisoformat(data[k])]; the
    attribute keeps the constructor's [None] otherwise. *)
Definition opt_time_of (v : pyval) : option (option Z) :=
  if truthy v then s <- as_str v ;; d <- fromisoformat s ;; Some (Some d)
  else Some None.

(** [Task.from_dict].  [None] stands for a raised exception: a
    [KeyError] on one of the four mandatory keys, a value
    [fromisoformat] rejects, or a value outside the attribute's declared
    type. *)
Definition from_dict (data : dict pyval) : option Task :=
  id <- opt_bind (dict_get data "task_id") as_str ;;
  ty <- opt_bind (dict_get data "task_type") as_str ;;
  p <- dict_get data "params" ;;
  when <- opt_bind (opt_bind (dict_get data "schedule_time") as_str)
            fromisoformat ;;
  prio <- as_int (dict_get_or data "priority" (PInt 1)) ;;
  maxr <- as_int (dict_get_or data "max_retries" (PInt 3)) ;;
  delay <- as_int (dict_get_or data "retry_delay" (PInt 300)) ;;
  tmo <- as_int (dict_get_or data "timeout" (PInt 3600)) ;;
  cb <- as_opt_str (dict_get_or data "callback_url" PNone) ;;
  st <- as_str (dict_get_or data "status" (PStr Scheduled)) ;;
  rc <- as_int (dict_get_or data "retry_count" (PInt 0)) ;;
  t0 <- opt_time_of (dict_get_or data "start_time" PNone) ;;
  t1 <- opt_time_of (dict_get_or data "end_time" PNone) ;;
  err <- as_opt_str (dict_get_or data "error" PNone) ;;
  let task := new_Task id ty p when prio maxr delay tmo cb in
  let task := set_status st task in
  let task := set_retry_count rc task in
  let task := match t0 with Some d => set_start_time (Some d) task | None => task end in
  let task := match t1 with Some d => set_end_time (Some d) task | None => task end in
  let task := set_result (dict_get_or data "result" PNone) task in
  let task := set_error err task in
  Some task.
End Serialization.

(** ** The ready queue

    [asyncio.PriorityQueue] holds the pairs
    [((priority, schedule_time.timestamp(), task_id), task_id)] and hands
    out a least one; Python compares tuples component by component and
    strings by code point. *)

Definition qkey : Type := Z * Z * string.
Definition qitem : Type := qkey * string.

Definition lex (c : comparison) (k : comparison) : comparison :=
  match c with Eq => k | _ => c end.

Definition qitem_compare (x y : qitem) : comparison :=
  let '((p1, t1, i1), j1) := x in
  let '((p2, t2, i2), j2) := y in
  lex (p1 ?= p2)
    (lex (t1 ?= t2) (lex (String.compare i1 i2) (String.compare j1 j2))).

Definition qitem_leb (x y : qitem) : bool :=
  match qitem_compare x y with Gt => false | _ => true end.

Definition qitem_ltb (x y : qitem) : bool :=
  match qitem_compare x y with Lt => true | _ => false end.

(** [put_nowait] / [put] (the queue is unbounded) *)
Definition pq_put (q : list qitem) (x : qitem) : list qitem := x :: q.

(** A least item among [x] and [q], with the others. *)
Fixpoint pq_min (x : qitem) (q : list qitem) : qitem * list qitem :=
  match q with
  | [] => (x, [])
  | y :: q' =>
      if qitem_leb x y
      then let (m, r) := pq_min x q' in (m, y :: r)
      else let (m, r) := pq_min y q' in (m, x :: r)
  end.

(** [get]; [None] when the queue is empty (the caller's wait times out). *)
Definition pq_get (q : list qitem) : option (qitem * list qitem) :=
  match q with
  | [] => None
  | x :: q' => Some (pq_min x q')
  end.

Definition qitem_of (t : Task) (id : string) : qitem :=
  ((priority t, schedule_time t, task_id t), id).

(** ** Coroutines running [_execute_task] *)

Inductive cstate : Type :=
| Pending     (* created by [asyncio.create_task], not yet run *)
| Waiting     (* suspended in [await asyncio.wait_for(handler(task), ...)] *)
| Finished.

Record Coro : Type := mkCoro {
  c_task : nat;          (* the [task] argument, an address *)
  c_state : cstate;
  c_cancel : bool        (* [cancel()] was called on it *)
}.

(** [runner.cancel()]; no effect on a coroutine that is done. *)
Definition request_cancel (c : Coro) : Coro :=
  match c_state c with
  | Finished => c
  | _ => mkCoro (c_task c) (c_state c) true
  end.

Definition set_cstate (st : cstate) (c : Coro) : Coro :=
  mkCoro (c_task c) st (c_cancel c).

(** How the awaited handler call ends. *)
Inductive outcome : Type :=
| Success (v : pyval)       (* the handler returned [v] *)
| TimedOut                  (* [asyncio.TimeoutError] *)
| Raised (msg : string)     (* another [Exception], [str(e) = msg] *)
| CancelledErr.             (* [asyncio.CancelledError], not an [Exception] *)

(** ** The scheduler state *)

Record Scheduler : Type := mkScheduler {
  objects : list Task;                   (* the [Task] objects, by address *)
  tasks : dict nat;                      (* [self.tasks] *)
  task_queue : list qitem;               (* [self.task_queue] *)
  max_concurrent_tasks : Z;
  running_tasks : dict nat;              (* [self.running_tasks]: id to coroutine *)
  coros : list Coro;                     (* the coroutines created so far *)
  handlers : dict unit;                  (* [self.handlers], keys only *)
  is_running : bool;
  storage : option (dict (dict pyval));  (* the file at [storage_path] *)
  callbacks : list (string * dict pyval);(* requests posted by [_send_callback] *)
  invoked : list nat                     (* tasks handed to a handler *)
}.

Definition set_objects (v : list Task) (s : Scheduler) : Scheduler :=
  mkScheduler v (tasks s) (task_queue s) (max_concurrent_tasks s)
    (running_tasks s) (coros s) (handlers s) (is_running s) (storage s)
    (callbacks s) (invoked s).

Definition set_tasks (v : dict nat) (s : Scheduler) : Scheduler :=
  mkScheduler (objects s) v (task_queue s) (max_concurrent_tasks s)
    (running_tasks s) (coros s) (handlers s) (is_running s) (storage s)
    (callbacks s) (invoked s).

Definition set_task_queue (v : list qitem) (s : Scheduler) : Scheduler :=
  mkScheduler (objects s) (tasks s) v (max_concurrent_tasks s)
    (running_tasks s) (coros s) (handlers s) (is_running s) (storage s)
    (callbacks s) (invoked s).

Definition set_running_tasks (v : dict nat) (s : Scheduler) : Scheduler :=
  mkScheduler (objects s) (tasks s) (task_queue s) (max_concurrent_tasks s)
    v (coros s) (handlers s) (is_running s) (storage s)
    (callbacks s) (invoked s).

Definition set_coros (v : list Coro) (s : Scheduler) : Scheduler :=
  mkScheduler (objects s) (tasks s) (task_queue s) (max_concurrent_tasks s)
    (running_tasks s) v (handlers s) (is_running s) (storage s)
    (callbacks s) (invoked s).

Definition set_handlers (v : dict unit) (s : Scheduler) : Scheduler :=
  mkScheduler (objects s) (tasks s) (task_queue s) (max_concurrent_tasks s)
    (running_tasks s) (coros s) v (is_running s) (storage s)
    (callbacks s) (invoked s).

Definition set_is_running (v : bool) (s : Scheduler) : Scheduler :=
  mkScheduler (objects s) (tasks s) (task_queue s) (max_concurrent_tasks s)
    (running_tasks s) (coros s) (handlers s) v (storage s)
    (callbacks s) (invoked s).

Definition set_storage (v : option (dict (dict pyval))) (s : Scheduler)
    : Scheduler :=
  mkScheduler (objects s) (tasks s) (task_queue s) (max_concurrent_tasks s)
    (running_tasks s) (coros s) (handlers s) (is_running s) v
    (callbacks s) (invoked s).

Definition set_callbacks (v : list (string * dict pyval)) (s : Scheduler)
    : Scheduler :=
  mkScheduler (objects s) (tasks s) (task_queue s) (max_concurrent_tasks s)
    (running_tasks s) (coros s) (handlers s) (is_running s) (storage s)
    v (invoked s).

Definition set_invoked (v : list nat) (s : Scheduler) : Scheduler :=
  mkScheduler (objects s) (tasks s) (task_queue s) (max_concurrent_tasks s)
    (running_tasks s) (coros s) (handlers s) (is_running s) (storage s)
    (callbacks s) v.

(** The object at an address, and [self.tasks.get(id)]. *)
Definition obj (s : Scheduler) (a : nat) : option Task := nth_error (objects s) a.

Definition get_task (s : Scheduler) (id : string) : option Task :=
  a <- dict_get (tasks s) id ;; obj s a.

(** [task.<attr> = ...] on the object at [a]. *)
Definition mutate (a : nat) (f : Task -> Task) (s : Scheduler) : Scheduler :=
  set_objects (list_update (objects s) a f) s.

(** A new object. *)
Definition alloc (t : Task) (s : Scheduler) : nat * Scheduler :=
  (List.length (objects s), set_objects (objects s ++ [t])%list s).

(** ** What [_execute_task] does to its task *)

(** "Handle retry logic" *)
Definition retry_or_fail (now : Z) (t : Task) : Task :=
  if retry_count t <? max_retries t then
    set_schedule_time (now + retry_delay t)
      (set_status Scheduled (set_retry_count (retry_count t + 1) t))
  else t.

Definition timeout_message (t : Task) : string :=
  ("Task execution timed out after " ++ str_of_int (timeout t) ++ " seconds")%string.

Definition no_handler_message (t : Task) : string :=
  ("No handler registered for task type: " ++ task_type t)%string.

(** The [try] body after the await and the [except] clauses. *)
Definition settle (o : outcome) (now : Z) (t : Task) : Task :=
  match o with
  | Success v => set_result v (set_status Completed t)
  | TimedOut =>
      retry_or_fail now
        (set_error (Some (timeout_message t)) (set_status Failed t))
  | Raised msg =>
      retry_or_fail now (set_error (Some msg) (set_status Failed t))
  | CancelledErr => t
  end.

(** The failure branch taken when no handler is registered. *)
Definition fail_no_handler (t : Task) : Task :=
  set_error (Some (no_handler_message t)) (set_status Failed t).

(** "Update task status", before the handler is awaited. *)
Definition task_begin (now : Z) (t : Task) : Task :=
  set_start_time (Some now) (set_status Running t).

(** From the return of the await to [task.end_time = datetime.now()]. *)
Definition task_end (o : outcome) (now : Z) (t : Task) : Task :=
  set_end_time (Some now) (settle o now t).

(** Whether the [except] clause re-inserts the task into the queue. *)
Definition requeues (o : outcome) (t : Task) : bool :=
  match o with
  | TimedOut | Raised _ => retry_count t <? max_retries t
  | _ => false
  end.

(** [task.callback_url and task.status in ["completed", "failed"]] *)
Definition wants_callback (t : Task) : bool :=
  match callback_url t with
  | Some url =>
      negb (url =? "")%string
      && ((status t =? Completed)%string || (status t =? Failed)%string)
  | None => false
  end.

Section Operations.
Context {codec : IsoCodec}.

(** The document [save_tasks] writes. *)
Definition task_data (s : Scheduler) : dict (dict pyval) :=
  flat_map
    (fun '(id, a) =>
       match obj s a with Some t => [(id, to_dict t)] | None => [] end)
    (tasks s).

Definition save_tasks (s : Scheduler) : Scheduler :=
  set_storage (Some (task_data s)) s.

Definition register_handler (ty : string) (s : Scheduler) : Scheduler :=
  set_handlers (dict_set (handlers s) ty tt) s.

(** [schedule_task(task)], [task] being the object at [a]. *)
Definition schedule_task (a : nat) (s : Scheduler)
    : option (string * Scheduler) :=
  t <- obj s a ;;
  let s := set_tasks (dict_set (tasks s) (task_id t) a) s in
  let s := set_task_queue (pq_put (task_queue s) (qitem_of t (task_id t))) s in
  let s := save_tasks s in
  Some (task_id t, s).

Definition cancel_task (id : string) (s : Scheduler) : bool * Scheduler :=
  match get_task s id, dict_get (tasks s) id with
  | Some t, Some a =>
      if (status t =? Scheduled)%string || (status t =? Running)%string then
        let s := mutate a (set_status Cancelled) s in
        let s :=
          match dict_get (running_tasks s) id with
          | Some r => set_coros (list_update (coros s) r request_cancel) s
          | None => s
          end in
        (true, save_tasks s)
      else (false, s)
  | _, _ => (false, s)
  end.

(** One iteration of the [while self.is_running] loop of [_worker]. *)
Definition worker (now : Z) (s : Scheduler) : Scheduler :=
  if Z.of_nat (List.length (running_tasks s)) >=? max_concurrent_tasks s then s
  else
    match pq_get (task_queue s) with
    | None => s
    | Some ((_, id), q') =>
        let s := set_task_queue q' s in
        match dict_get (tasks s) id with
        | None => s
        | Some a =>
            match obj s a with
            | None => s
            | Some t =>
                if (status t =? Cancelled)%string then s
                else if schedule_time t >? now then
                  set_task_queue (pq_put q' (qitem_of t id)) s
                else
                  let r := List.length (coros s) in
                  let s := set_coros (coros s ++ [mkCoro a Pending false])%list s in
                  set_running_tasks (dict_set (running_tasks s) id r) s
            end
        end
    end.

(** [_execute_task] up to its first suspension.  A coroutine cancelled
    before it ever ran does not execute any of its body. *)
Definition execute_begin (r : nat) (now : Z) (s : Scheduler)
    : option Scheduler :=
  c <- nth_error (coros s) r ;;
  match c_state c with
  | Pending =>
      if c_cancel c then
        Some (set_coros (list_update (coros s) r (set_cstate Finished)) s)
      else
        t <- obj s (c_task c) ;;
        if negb (dict_mem (handlers s) (task_type t)) then
          let s := mutate (c_task c) fail_no_handler s in
          let s := save_tasks s in
          Some (set_coros (list_update (coros s) r (set_cstate Finished)) s)
        else
          let s := mutate (c_task c) (task_begin now) s in
          let s := save_tasks s in
          let s := set_invoked (invoked s ++ [c_task c])%list s in
          Some (set_coros (list_update (coros s) r (set_cstate Waiting)) s)
  | _ => None
  end.

(** [_execute_task] from the return of the await to its end. *)
Definition execute_end (r : nat) (o : outcome) (now : Z) (s : Scheduler)
    : option Scheduler :=
  c <- nth_error (coros s) r ;;
  match c_state c with
  | Waiting =>
      t <- obj s (c_task c) ;;
      let t1 := settle o now t in
      let s :=
        if requeues o t
        then set_task_queue (pq_put (task_queue s) (qitem_of t1 (task_id t1))) s
        else s in
      let t2 := task_end o now t in
      let s := mutate (c_task c) (task_end o now) s in
      let s := set_running_tasks (dict_del (running_tasks s) (task_id t2)) s in
      let s := save_tasks s in
      let s :=
        if wants_callback t2
        then set_callbacks
               (callbacks s ++ [(match callback_url t2 with
                                 | Some u => u | None => "" end,
                                 to_dict t2)])%list s
        else s in
      Some (set_coros (list_update (coros s) r (set_cstate Finished)) s)
  | _ => None
  end.

(** [start] *)
Definition start (s : Scheduler) : Scheduler :=
  if is_running s then s else set_is_running true s.

(** [shutdown] up to [asyncio.gather]: the loop over
    [self.running_tasks.items()]. *)
Definition cancel_running (s : Scheduler) : Scheduler :=
  fold_left
    (fun s '(id, r) =>
       let s := set_coros (list_update (coros s) r request_cancel) s in
       match dict_get (tasks s) id with
       | Some a => mutate a (set_status Cancelled) s
       | None => s
       end)
    (running_tasks s) s.

Definition shutdown (s : Scheduler) : Scheduler :=
  cancel_running (set_is_running false s).

(** [load_tasks]: an exception leaves the loop, keeping what was loaded. *)
Fixpoint load_items (items : dict (dict pyval)) (s : Scheduler) : Scheduler :=
  match items with
  | [] => s
  | (id, data) :: rest =>
      match from_dict data with
      | None => s
      | Some t =>
          let (a, s) := alloc t s in
          let s := set_tasks (dict_set (tasks s) id a) s in
          let s :=
            if (status t =? Scheduled)%string
            then set_task_queue (pq_put (task_queue s) (qitem_of t id)) s
            else s in
          load_items rest s
      end
  end.

Definition load_tasks (s : Scheduler) : Scheduler :=
  match storage s with
  | Some data => load_items data s
  | None => s
  end.

(** [TaskScheduler.__init__] *)
Definition TaskScheduler_init (max_concurrent : Z)
    (file : option (dict (dict pyval))) : Scheduler :=
  load_tasks
    {| objects := []; tasks := []; task_queue := [];
       max_concurrent_tasks := max_concurrent; running_tasks := [];
       coros := []; handlers := []; is_running := false; storage := file;
       callbacks := []; invoked := [] |}.

(** ** The step relation *)

Inductive event : Type :=
| ERegister (ty : string)
| ESchedule (t : Task)            (* [schedule_task] of a new object *)
| EReschedule (a : nat)           (* [schedule_task] of a known object *)
| ECancel (id : string)
| EStart
| EWorker (now : Z)
| EBegin (r : nat) (now : Z)
| EEnd (r : nat) (o : outcome) (now : Z)
| EShutdown
| ESave.                          (* the last [save_tasks] of [shutdown] *)

Definition step (s : Scheduler) (e : event) : option Scheduler :=
  match e with
  | ERegister ty => Some (register_handler ty s)
  | ESchedule t =>
      let (a, s) := alloc t s in option_map snd (schedule_task a s)
  | EReschedule a => option_map snd (schedule_task a s)
  | ECancel id => Some (snd (cancel_task id s))
  | EStart => Some (start s)
  | EWorker now => if is_running s then Some (worker now s) else None
  | EBegin r now => execute_begin r now s
  | EEnd r o now => execute_end r o now s
  | EShutdown => Some (shutdown s)
  | ESave => Some (save_tasks s)
  end.

Fixpoint run (s : Scheduler) (es : list event) : option Scheduler :=
  match es with
  | [] => Some s
  | e :: es' => s' <- step s e ;; run s' es'
  end.

Definition has_status (s : Scheduler) (st : string) (a : nat) : bool :=
  match obj s a with
  | Some t => (status t =? st)%string
  | None => false
  end.

(** The number of tasks of [self.tasks] whose status is Running. *)
Definition count_running (s : Scheduler) : nat :=
  List.length (filter (fun kv => has_status s Running (snd kv)) (tasks s)).
End Operations.

(** ** Queries *)

(** [get_all_tasks]: [list(self.tasks.values())] *)
Definition get_all_tasks (s : Scheduler) : list Task :=
  flat_map (fun kv => match obj s (snd kv) with Some t => [t] | None => [] end)
    (tasks s).

(** [get_tasks_by_status] *)
Definition get_tasks_by_status (s : Scheduler) (st : string) : list Task :=
  filter (fun t => (status t =? st)%string) (get_all_tasks s).

(** * Notions used in the statements *)

(** ** Comparisons that are total orders *)

Record CmpOrder {A : Type} (cmp : A -> A -> comparison) : Prop := {
  cmp_eq : forall x y, cmp x y = Eq <-> x = y;
  cmp_opp : forall x y, cmp y x = CompOpp (cmp x y);
  cmp_lt_trans : forall x y z, cmp x y = Lt -> cmp y z = Lt -> cmp x z = Lt
}.

Definition lex_compare {A B : Type} (ca : A -> A -> comparison)
    (cb : B -> B -> comparison) (x y : A * B) : comparison :=
  lex (ca (fst x) (fst y)) (cb (snd x) (snd y)).

(** ** Dispatch and persistence *)

(** The item an iteration of the worker takes out of the queue. *)
Definition popped (s : Scheduler) : option qitem :=
  if Z.of_nat (List.length (running_tasks s)) >=? max_concurrent_tasks s
  then None
  else option_map fst (pq_get (task_queue s)).

(** The tasks [save_tasks] writes, with their keys. *)
Definition persisted (s : Scheduler) : list (string * Task) :=
  flat_map
    (fun '(id, a) => match obj s a with Some t => [(id, t)] | None => [] end)
    (tasks s).

(** What [load_tasks] does with one entry of the file. *)
Definition load_one (s : Scheduler) (kv : string * Task) : Scheduler :=
  let (a, s) := alloc (snd kv) s in
  let s := set_tasks (dict_set (tasks s) (fst kv) a) s in
  if (status (snd kv) =? Scheduled)%string
  then set_task_queue (pq_put (task_queue s) (qitem_of (snd kv) (fst kv))) s
  else s.



(** Addresses held by [self.tasks] are allocated. *)
Definition tasks_bound (s : Scheduler) : Prop :=
  forall id a, dict_get (tasks s) id = Some a ->
               (a < List.length (objects s))%nat.

(** ** Effects of a step *)

Definition live (st : string) : Prop := st = Scheduled \/ st = Running.

(** What one step may do to the task object at address [a]. *)
Definition task_step (s : Scheduler) (e : event)
    (a : nat) (t t' : Task) : Prop :=
  match e with
  | ECancel id =>
      t' = t \/
      (live (status t) /\ dict_get (tasks s) id = Some a /\
       t' = set_status Cancelled t)
  | EBegin r now =>
      t' = t \/
      (exists c, nth_error (coros s) r = Some c /\ c_state c = Pending /\
                 c_cancel c = false /\ c_task c = a /\
                 ((dict_mem (handlers s) (task_type t) = false /\
                   t' = fail_no_handler t) \/
                  (dict_mem (handlers s) (task_type t) = true /\
                   t' = task_begin now t)))
  | EEnd r o now =>
      t' = t \/
      (exists c, nth_error (coros s) r = Some c /\ c_state c = Waiting /\
                 c_task c = a /\ t' = task_end o now t)
  | EShutdown => t' = t \/ t' = set_status Cancelled t
  | _ => t' = t
  end.



Definition is_failure (o : outcome) : Prop :=
  o = TimedOut \/ exists msg, o = Raised msg.

(** The transitions of the state machine, with the one the code adds:
    a task without a registered handler fails without having been
    Running. *)
Inductive transition : string -> string -> Prop :=
| tr_start : transition Scheduled Running
| tr_no_handler : transition Scheduled Failed
| tr_cancel_scheduled : transition Scheduled Cancelled
| tr_complete : transition Running Completed
| tr_fail : transition Running Failed
| tr_retry : transition Running Scheduled
| tr_cancel_running : transition Running Cancelled.

(** The status changes a step can make. *)
Inductive status_change (s : Scheduler) (t t' : Task)
    : event -> Prop :=
| sc_cancel id :
    live (status t) -> status t' = Cancelled ->
    status_change s t t' (ECancel id)
| sc_begin_no_handler r now :
    dict_mem (handlers s) (task_type t) = false -> status t' = Failed ->
    status_change s t t' (EBegin r now)
| sc_begin r now :
    dict_mem (handlers s) (task_type t) = true -> status t' = Running ->
    status_change s t t' (EBegin r now)
| sc_end_success r v now :
    status t' = Completed -> status_change s t t' (EEnd r (Success v) now)
| sc_end_retry r o now :
    is_failure o -> retry_count t < max_retries t -> status t' = Scheduled ->
    status_change s t t' (EEnd r o now)
| sc_end_failed r o now :
    is_failure o -> retry_count t >= max_retries t -> status t' = Failed ->
    status_change s t t' (EEnd r o now)
| sc_shutdown :
    status t' = Cancelled -> status_change s t t' EShutdown.

(** Well-formedness of the states the scheduler reaches. *)
Definition wf (s : Scheduler) : Prop :=
  NoDup (dict_keys (tasks s)) /\ tasks_bound s /\
  NoDup (dict_keys (running_tasks s)) /\
  Z.of_nat (List.length (running_tasks s)) <= Z.max 0 (max_concurrent_tasks s).






(** One run of a supervisor on a task that has a handler: started at [b],
    ended at [e] with outcome [o]. *)
Definition attempt (x : outcome * Z * Z) (t : Task) : Task :=
  let '(o, b, e) := x in task_end o e (task_begin b t).

Definition attempts (xs : list (outcome * Z * Z)) (t : Task) : Task :=
  fold_left (fun t x => attempt x t) xs t.

Definition failed_attempt (x : outcome * Z * Z) : Prop :=
  is_failure (fst (fst x)).

(** ** Invariants of the reachable states *)

(** Every key of [self.tasks] is the [task_id] of the task it denotes. *)
Definition keys_ok (s : Scheduler) : Prop :=
  forall id a t, dict_get (tasks s) id = Some a -> obj s a = Some t ->
                 task_id t = id.

(** The id of every task object is a key of [self.tasks]. *)
Definition objs_ok (s : Scheduler) : Prop :=
  forall a t, obj s a = Some t -> dict_mem (tasks s) (task_id t) = true.

(** Every queued item carries one id, a key of [self.tasks]. *)
Definition queue_ok (s : Scheduler) : Prop :=
  forall x, In x (task_queue s) ->
            snd (fst x) = snd x /\ dict_mem (tasks s) (snd x) = true.

Definition ids_ok (s : Scheduler) : Prop :=
  tasks_bound s /\ keys_ok s /\ objs_ok s /\ queue_ok s.

(** The attributes no operation assigns. *)
Definition same_identity (t t' : Task) : Prop :=
  task_id t' = task_id t /\ task_type t' = task_type t /\
  params t' = params t /\ priority t' = priority t /\
  max_retries t' = max_retries t /\ retry_delay t' = retry_delay t /\
  timeout t' = timeout t /\ callback_url t' = callback_url t.

(** Iterations of the dispatcher at the instants [nows]. *)
Definition workers {codec : IsoCodec} (nows : list Z) (s : Scheduler)
    : Scheduler :=
  fold_left (fun s now => worker now s) nows s.

(** The file holds the snapshot of the tasks. *)
Definition synced {codec : IsoCodec} (s : Scheduler) : Prop :=
  storage s = Some (task_data s).

(** The keys [from_dict] reads with [data[...]] and with [data.get(...)]. *)
Definition mandatory_keys : list string :=
  ["task_id"; "task_type"; "params"; "schedule_time"].

Definition optional_keys : list string :=
  ["priority"; "max_retries"; "retry_delay"; "timeout"; "callback_url";
   "status"; "retry_count"; "start_time"; "end_time"; "result"; "error"].



(** ** Example tasks and traces *)

Abbreviation ex_run N file tr :=
  (@run epoch_codec (@TaskScheduler_init epoch_codec N file) tr) (only parsing).

Definition ex_state (N : Z) (file : option (dict (dict pyval)))
    (tr : list event) : Scheduler :=
  match ex_run N file tr with
  | Some s => s
  | None => @TaskScheduler_init epoch_codec N file
  end.

(** A task with a callback address, of a type nobody handles. *)
Definition ex_mail : Task :=
  new_Task "t1" "email" (PDict []) 0 1 3 300 3600 (Some "http://cb").

(** The same with no retry allowed. *)
Definition ex_mail_once : Task :=
  new_Task "t1" "email" (PDict []) 0 1 0 300 3600 (Some "http://cb").

(** A task that may be retried once, five seconds after a failure. *)
Definition ex_flaky : Task :=
  new_Task "t2" "email" (PDict []) 0 1 1 5 3600 None.

Definition ex_a : Task := new_Task "a" "t" PNone 0 1 3 300 3600 None.
Definition ex_b : Task := new_Task "b" "t" PNone 0 1 3 300 3600 None.
Definition ex_c : Task := new_Task "c" "t" PNone 0 1 3 300 3600 None.

(** [t1] is scheduled and dispatched, no handler being registered. *)
Definition ex_dispatch_unhandled : list event :=
  [ESchedule ex_mail; EStart; EWorker 10].

(** [t1] fails in its handler with the retries exhausted. *)
Definition ex_handler_fails : list event :=
  [ERegister "email"; ESchedule ex_mail_once; EStart; EWorker 10;
   EBegin 0%nat 10; EEnd 0%nat (Raised "boom") 12].

(** [t2] fails once, is retried and completes. *)
Definition ex_retry_then_complete : list event :=
  [ERegister "email"; ESchedule ex_flaky; EStart; EWorker 10;
   EBegin 0%nat 10; EEnd 0%nat (Raised "boom") 20;
   EWorker 24; EWorker 25; EBegin 1%nat 25;
   EEnd 1%nat (Success (PInt 7)) 30].

(** [a] is scheduled twice.  Its first supervisor is running when the
    dispatcher takes the second item and starts another one, under the same
    key of the running set; the first ends before the second has started
    and deletes that key; [b] and [c] are then dispatched next to the
    second supervisor of [a]. *)
Definition ex_overrun : list event :=
  [ERegister "t"; ESchedule ex_a; ESchedule ex_a; ESchedule ex_b;
   ESchedule ex_c; EStart;
   EWorker 1; EBegin 0%nat 1; EWorker 1;
   EEnd 0%nat (Success PNone) 2; EBegin 1%nat 2;
   EWorker 3; EBegin 2%nat 3; EWorker 3; EBegin 3%nat 3].

(** A process is killed while [a] is running... *)
Definition ex_before_crash : list event :=
  [ERegister "t"; ESchedule ex_a; EStart; EWorker 1; EBegin 0%nat 1].

Definition ex_crash_file : option (dict (dict pyval)) :=
  storage (ex_state 1 None ex_before_crash).

(** ... and the next one, created on its file, runs [b]. *)
Definition ex_after_restart : list event :=
  [ERegister "t"; ESchedule ex_b; EStart; EWorker 5; EBegin 0%nat 5].

(** Two tasks ready at the same time, [b] queued before [a]. *)
Definition ex_two_ready : list event :=
  [ERegister "t"; ESchedule ex_b; ESchedule ex_a; EStart].

(** A task due at instant 100. *)
Definition ex_late : Task := new_Task "late" "t" PNone 100 1 3 300 3600 None.

(** A task document with the mandatory keys only. *)
Definition ex_minimal_doc : dict pyval :=
  [("task_id", PStr "t9"); ("task_type", PStr "email"); ("params", PDict []);
   ("schedule_time", PStr "0")].

(** [t2] is scheduled, its type having a handler... *)
Definition ex_flaky_scheduled : list event :=
  [ERegister "email"; ESchedule ex_flaky].

(** ... and fails in its first attempt. *)
Definition ex_flaky_first_attempt : list event :=
  [EStart; EWorker 10; EBegin 0%nat 10; EEnd 0%nat (Raised "boom") 20].

(** [t1], with no retry allowed, is in the hands of its handler. *)
Definition ex_mail_running : list event :=
  [ERegister "email"; ESchedule ex_mail_once; EStart; EWorker 10;
   EBegin 0%nat 10].

(** [t1] is dispatched, its type having a handler. *)
Definition ex_mail_dispatched : list event :=
  [ERegister "email"; ESchedule ex_mail; EStart; EWorker 10].

(** * Properties *)

(** ** Comparisons that are total orders *)

Lemma lex_CmpOrder {A B : Type} (ca : A -> A -> comparison)
    (cb : B -> B -> comparison) :
  CmpOrder ca -> CmpOrder cb -> CmpOrder (lex_compare ca cb).
Proof.
  intros [ea oa ta] [eb ob tb]. split.
  - intros [a1 b1] [a2 b2]. unfold lex_compare, lex; simpl. split.
    + destruct (ca a1 a2) eqn:E; try discriminate.
      intros H. apply ea in E. apply eb in H. congruence.
    + intros [= -> ->].
      assert (E : ca a2 a2 = Eq) by (apply ea; reflexivity).
      rewrite E. apply eb. reflexivity.
  - intros [a1 b1] [a2 b2]. unfold lex_compare, lex; simpl.
    rewrite (oa a1 a2). destruct (ca a1 a2); simpl; auto.
  - intros [a1 b1] [a2 b2] [a3 b3]. unfold lex_compare, lex; simpl.
    destruct (ca a1 a2) eqn:E12; try discriminate;
      destruct (ca a2 a3) eqn:E23; try discriminate; intros H12 H23.
    + apply ea in E12, E23. subst.
      assert (E : ca a3 a3 = Eq) by (apply ea; reflexivity).
      rewrite E. eapply tb; eauto.
    + apply ea in E12. subst. rewrite E23. reflexivity.
    + apply ea in E23. subst. rewrite E12. reflexivity.
    + rewrite (ta _ _ _ E12 E23). reflexivity.
Qed.

Lemma Z_CmpOrder : CmpOrder Z.compare.
Proof.
  split.
  - intros x y. apply Z.compare_eq_iff.
  - intros x y. apply Z.compare_antisym.
  - intros x y z. rewrite !Z.compare_lt_iff. lia.
Qed.

Lemma ascii_compare_lt_trans (a b c : ascii) :
  Ascii.compare a b = Lt -> Ascii.compare b c = Lt -> Ascii.compare a c = Lt.
Proof.
  unfold Ascii.compare. rewrite !N.compare_lt_iff. apply N.lt_trans.
Qed.

Lemma string_compare_refl (s : string) : String.compare s s = Eq.
Proof.
  induction s as [|a s IH]; simpl; auto.
  assert (E : Ascii.compare a a = Eq).
  { unfold Ascii.compare. apply N.compare_refl. }
  rewrite E. exact IH.
Qed.

Lemma string_compare_lt_trans (s1 s2 s3 : string) :
  String.compare s1 s2 = Lt -> String.compare s2 s3 = Lt ->
  String.compare s1 s3 = Lt.
Proof.
  revert s2 s3.
  induction s1 as [|a s1 IH]; intros [|b s2] [|c s3]; simpl;
    try discriminate; auto.
  destruct (Ascii.compare a b) eqn:Eab; try discriminate;
    destruct (Ascii.compare b c) eqn:Ebc; try discriminate; intros H1 H2.
  - apply Ascii.compare_eq_iff in Eab, Ebc. subst.
    assert (E : Ascii.compare c c = Eq)
      by (unfold Ascii.compare; apply N.compare_refl).
    rewrite E. eapply IH; eauto.
  - apply Ascii.compare_eq_iff in Eab. subst. rewrite Ebc. reflexivity.
  - apply Ascii.compare_eq_iff in Ebc. subst. rewrite Eab. reflexivity.
  - rewrite (ascii_compare_lt_trans _ _ _ Eab Ebc). reflexivity.
Qed.

Lemma string_CmpOrder : CmpOrder String.compare.
Proof.
  split.
  - intros x y. split.
    + apply String.compare_eq_iff.
    + intros ->. apply string_compare_refl.
  - intros x y. apply String.compare_antisym.
  - apply string_compare_lt_trans.
Qed.

Lemma qitem_compare_lex (x y : qitem) :
  qitem_compare x y =
  lex_compare
    (lex_compare (lex_compare Z.compare Z.compare) String.compare)
    String.compare x y.
Proof.
  destruct x as [[[p1 t1] i1] j1], y as [[[p2 t2] i2] j2].
  unfold qitem_compare, lex_compare, lex; simpl.
  destruct (p1 ?= p2); auto. destruct (t1 ?= t2); auto.
Qed.

Lemma qitem_CmpOrder : CmpOrder qitem_compare.
Proof.
  pose proof (lex_CmpOrder _ _
    (lex_CmpOrder _ _ (lex_CmpOrder _ _ Z_CmpOrder Z_CmpOrder) string_CmpOrder)
    string_CmpOrder) as [e o t].
  split; intros; rewrite ?qitem_compare_lex in *; auto.
  eapply t; eauto.
Qed.

Lemma qitem_leb_refl (x : qitem) : qitem_leb x x = true.
Proof.
  unfold qitem_leb.
  assert (E : qitem_compare x x = Eq) by (apply qitem_CmpOrder; reflexivity).
  rewrite E. reflexivity.
Qed.

Lemma qitem_leb_total (x y : qitem) :
  qitem_leb x y = true \/ qitem_leb y x = true.
Proof.
  unfold qitem_leb. rewrite (cmp_opp _ qitem_CmpOrder x y).
  destruct (qitem_compare x y); simpl; auto.
Qed.

Lemma qitem_leb_antisym (x y : qitem) :
  qitem_leb x y = true -> qitem_leb y x = true -> x = y.
Proof.
  unfold qitem_leb. rewrite (cmp_opp _ qitem_CmpOrder x y).
  destruct (qitem_compare x y) eqn:E; simpl; try discriminate.
  intros _ _. apply qitem_CmpOrder. exact E.
Qed.

Lemma qitem_leb_trans (x y z : qitem) :
  qitem_leb x y = true -> qitem_leb y z = true -> qitem_leb x z = true.
Proof.
  unfold qitem_leb.
  destruct (qitem_compare x y) eqn:E12; try discriminate;
    destruct (qitem_compare y z) eqn:E23; try discriminate; intros _ _.
  - apply qitem_CmpOrder in E12, E23. subst.
    apply (qitem_leb_refl z).
  - apply qitem_CmpOrder in E12. subst. rewrite E23. reflexivity.
  - apply qitem_CmpOrder in E23. subst. rewrite E12. reflexivity.
  - rewrite (cmp_lt_trans _ qitem_CmpOrder _ _ _ E12 E23). reflexivity.
Qed.

Lemma qitem_ltb_leb (x y : qitem) :
  qitem_ltb x y = true <-> qitem_leb x y = true /\ x <> y.
Proof.
  unfold qitem_ltb, qitem_leb.
  destruct (qitem_compare x y) eqn:E; split; try discriminate; auto.
  - intros [_ H]. apply qitem_CmpOrder in E. contradiction.
  - intros _. split; auto. intros ->.
    assert (E' : qitem_compare y y = Eq) by (apply qitem_CmpOrder; reflexivity).
    congruence.
  - intros [H _]. discriminate.
Qed.

(** ** The ready queue hands out a least item *)

Lemma pq_min_spec (q : list qitem) : forall x m r,
  pq_min x q = (m, r) ->
  Permutation (x :: q) (m :: r) /\
  (forall y, In y (x :: q) -> qitem_leb m y = true).
Proof.
  induction q as [|y q IH]; intros x m r; simpl.
  - intros [= <- <-]. split; auto.
    intros y [<-|[]]. apply qitem_leb_refl.
  - destruct (qitem_leb x y) eqn:Hxy.
    + destruct (pq_min x q) as [m' r'] eqn:E. intros [= <- <-].
      destruct (IH _ _ _ E) as [HP Hmin]. split.
      * rewrite perm_swap. rewrite HP. apply perm_swap.
      * intros z [<-|[<-|Hz]].
        -- apply Hmin. left; reflexivity.
        -- apply qitem_leb_trans with x; auto. apply Hmin. left; reflexivity.
        -- apply Hmin. right; exact Hz.
    + destruct (pq_min y q) as [m' r'] eqn:E. intros [= <- <-].
      destruct (IH _ _ _ E) as [HP Hmin]. split.
      * rewrite HP. apply perm_swap.
      * assert (Hyx : qitem_leb y x = true).
        { destruct (qitem_leb_total x y); congruence. }
        intros z [<-|[<-|Hz]].
        -- apply qitem_leb_trans with y; auto. apply Hmin. left; reflexivity.
        -- apply Hmin. left; reflexivity.
        -- apply Hmin. right; exact Hz.
Qed.

Lemma pq_get_spec (q : list qitem) (m : qitem) (r : list qitem) :
  pq_get q = Some (m, r) ->
  Permutation q (m :: r) /\ (forall y, In y q -> qitem_leb m y = true).
Proof.
  destruct q as [|x q]; simpl; [discriminate|].
  intros [= H]. apply pq_min_spec. exact H.
Qed.

Lemma pq_get_nonempty (q : list qitem) :
  q <> [] -> exists m r, pq_get q = Some (m, r).
Proof.
  destruct q as [|x q]; [congruence|]. intros _. simpl.
  destruct (pq_min x q) as [m r]. eauto.
Qed.

Lemma qitem_ltb_lexicographic (p1 t1 p2 t2 : Z) (i1 i2 : string) :
  qitem_ltb ((p1, t1, i1), i1) ((p2, t2, i2), i2) = true <->
  p1 < p2 \/
  (p1 = p2 /\ (t1 < t2 \/ (t1 = t2 /\ (i1 <? i2)%string = true))).
Proof.
  unfold qitem_ltb, qitem_compare, lex, String.ltb.
  destruct (p1 ?= p2) eqn:Ep.
  - apply Z.compare_eq_iff in Ep. subst p2.
    destruct (t1 ?= t2) eqn:Et.
    + apply Z.compare_eq_iff in Et. subst t2.
      destruct (String.compare i1 i2) eqn:Ei.
      * split; [discriminate|].
        intros [H|[_ [H|[_ H]]]]; try lia; discriminate.
      * split; auto.
      * split; [discriminate|].
        intros [H|[_ [H|[_ H]]]]; try lia; discriminate.
    + apply Z.compare_lt_iff in Et. split; auto.
    + apply Z.compare_gt_iff in Et. split; [discriminate|].
      intros [H|[_ [H|[H _]]]]; lia.
  - apply Z.compare_lt_iff in Ep. split; auto.
  - apply Z.compare_gt_iff in Ep. split; [discriminate|].
    intros [H|[H _]]; lia.
Qed.

Section WorkerOrder.
Context {codec : IsoCodec}.

Lemma worker_no_pop (now : Z) (s : Scheduler) :
  popped s = None -> worker now s = s.
Proof.
  unfold popped, worker.
  destruct (_ >=? _); auto.
  destruct (pq_get (task_queue s)) as [[m r]|]; simpl; [discriminate|auto].
Qed.

Lemma worker_dispatch (now : Z) (s : Scheduler) (m : qitem)
    (r : list qitem) (a : nat) (t : Task) :
  (Z.of_nat (List.length (running_tasks s)) >=? max_concurrent_tasks s) = false ->
  pq_get (task_queue s) = Some (m, r) ->
  dict_get (tasks s) (snd m) = Some a ->
  obj s a = Some t ->
  status t <> Cancelled ->
  schedule_time t <= now ->
  worker now s =
  set_running_tasks (dict_set (running_tasks s) (snd m) (List.length (coros s)))
    (set_coros (coros s ++ [mkCoro a Pending false])%list
       (set_task_queue r s)).
Proof.
  intros Hcap Hget Hid Hobj Hst Htime. unfold worker.
  rewrite Hcap, Hget. destruct m as [k id]. simpl in *.
  rewrite Hid. unfold obj in *. simpl. rewrite Hobj.
  destruct (String.eqb_spec (status t) Cancelled); [contradiction|].
  destruct (Z.gtb_spec (schedule_time t) now); [lia|]. reflexivity.
Qed.

Lemma worker_coros (now : Z) (s : Scheduler) :
  coros (worker now s) = coros s \/
  exists m r a t,
    popped s = Some m /\ pq_get (task_queue s) = Some (m, r) /\
    dict_get (tasks s) (snd m) = Some a /\ obj s a = Some t /\
    status t <> Cancelled /\ schedule_time t <= now /\
    coros (worker now s) = (coros s ++ [mkCoro a Pending false])%list.
Proof.
  unfold worker, popped.
  destruct (_ >=? _); auto.
  destruct (pq_get (task_queue s)) as [[[k id] r]|] eqn:Hget; auto.
  simpl. destruct (dict_get (tasks s) id) as [a|] eqn:Hid; auto.
  unfold obj; simpl. destruct (nth_error (objects s) a) as [t|] eqn:Ho; auto.
  destruct (String.eqb_spec (status t) Cancelled); auto.
  destruct (Z.gtb_spec (schedule_time t) now); auto.
  right. exists (k, id), r, a, t. simpl. repeat split; auto.
Qed.
End WorkerOrder.

(** C4: queue items are totally ordered by priority, then scheduled time,
    then id; [get] returns a least item of the queue and leaves the
    others; an iteration of the worker never takes an item out of the
    queue while a strictly smaller one is queued; it dispatches the task of
    the least item when that task is eligible; and of two queued items the
    greater one is still queued after any dispatch. *)
Theorem C4_ready_queue_order {codec : IsoCodec} :
  (forall x y, qitem_leb x y = true \/ qitem_leb y x = true) /\
  (forall x y, qitem_leb x y = true -> qitem_leb y x = true -> x = y) /\
  (forall x y z,
      qitem_leb x y = true -> qitem_leb y z = true -> qitem_leb x z = true) /\
  (forall p1 t1 i1 p2 t2 i2,
      qitem_ltb ((p1, t1, i1), i1) ((p2, t2, i2), i2) = true <->
      p1 < p2 \/
      (p1 = p2 /\ (t1 < t2 \/ (t1 = t2 /\ (i1 <? i2)%string = true)))) /\
  (forall q, q <> [] -> exists m r, pq_get q = Some (m, r)) /\
  (forall q m r,
      pq_get q = Some (m, r) ->
      Permutation q (m :: r) /\ forall y, In y q -> qitem_leb m y = true) /\
  (forall s x y,
      In x (task_queue s) -> qitem_ltb x y = true -> popped s <> Some y) /\
  (forall s now m r a t,
      Z.of_nat (List.length (running_tasks s)) < max_concurrent_tasks s ->
      pq_get (task_queue s) = Some (m, r) ->
      dict_get (tasks s) (snd m) = Some a -> obj s a = Some t ->
      status t <> Cancelled -> schedule_time t <= now ->
      coros (worker now s) = (coros s ++ [mkCoro a Pending false])%list /\
      task_queue (worker now s) = r) /\
  (forall s now x y a,
      In x (task_queue s) -> In y (task_queue s) -> qitem_ltb x y = true ->
      coros (worker now s) = (coros s ++ [mkCoro a Pending false])%list ->
      exists m r,
        pq_get (task_queue s) = Some (m, r) /\
        dict_get (tasks s) (snd m) = Some a /\
        qitem_ltb m y = true /\
        In y (task_queue (worker now s))).
Proof.
  split; [exact qitem_leb_total|].
  split; [exact qitem_leb_antisym|].
  split; [exact qitem_leb_trans|].
  split; [intros; apply qitem_ltb_lexicographic|].
  split; [exact pq_get_nonempty|].
  split; [exact pq_get_spec|].
  assert (Hlt : forall q m r x y,
             pq_get q = Some (m, r) -> In x q -> qitem_ltb x y = true ->
             qitem_ltb m y = true).
  { intros q m r x y Hget Hx Hxy.
    destruct (pq_get_spec _ _ _ Hget) as [_ Hmin].
    specialize (Hmin _ Hx).
    apply qitem_ltb_leb in Hxy. destruct Hxy as [Hxy Hne].
    apply qitem_ltb_leb. split.
    - eapply qitem_leb_trans; eauto.
    - intros ->. apply Hne. apply qitem_leb_antisym; auto. }
  split; [|split].
  - intros s x y Hx Hxy. unfold popped.
    destruct (_ >=? _); [discriminate|].
    destruct (pq_get (task_queue s)) as [[m r]|] eqn:Hget; [|discriminate].
    simpl. intros [= ->].
    pose proof (Hlt _ _ _ _ _ Hget Hx Hxy) as H.
    apply qitem_ltb_leb in H. destruct H as [_ H]. congruence.
  - intros s now m r a t Hcap Hget Hid Ho Hst Htm.
    assert (Hcap' : (Z.of_nat (List.length (running_tasks s))
                     >=? max_concurrent_tasks s) = false).
    { destruct (Z.geb_spec (Z.of_nat (List.length (running_tasks s)))
                  (max_concurrent_tasks s)); [lia|reflexivity]. }
    rewrite (worker_dispatch now s m r a t Hcap' Hget Hid Ho Hst Htm).
    split; reflexivity.
  - intros s now x y a HA HB Hlt' Hco.
    destruct (worker_coros now s) as [Heq|(m & r & a' & t & Hp & Hget & Hid & Ho & Hst & Htm & Hco')].
    + rewrite Heq in Hco. exfalso.
      apply (f_equal (@List.length _)) in Hco. rewrite length_app in Hco.
      simpl in Hco. lia.
    + rewrite Hco' in Hco. apply app_inv_head in Hco. injection Hco as ->.
      exists m, r. split; auto. split; auto.
      pose proof (Hlt _ _ _ _ _ Hget HA Hlt') as Hm. split; auto.
      unfold popped in Hp.
      destruct (_ >=? _) eqn:Hcap; [discriminate|].
      rewrite (worker_dispatch now s m r a t Hcap Hget Hid Ho Hst Htm). simpl.
      destruct (pq_get_spec _ _ _ Hget) as [HP _].
      apply (Permutation_in _ HP) in HB. destruct HB as [HB|HB]; auto.
      apply qitem_ltb_leb in Hm. destruct Hm as [_ Hm]. congruence.
Qed.

(** ** Dictionaries and the object store: basic facts *)

Lemma dict_get_set_same {V : Type} (d : dict V) (k : string) (v : V) :
  dict_get (dict_set d k v) k = Some v.
Proof.
  induction d as [|[k' v'] d IH]; simpl.
  - rewrite String.eqb_refl. reflexivity.
  - destruct (String.eqb_spec k' k); simpl.
    + rewrite String.eqb_refl. reflexivity.
    + destruct (String.eqb_spec k' k); [contradiction|]. exact IH.
Qed.

Lemma dict_get_set_other {V : Type} (d : dict V) (k k' : string) (v : V) :
  k <> k' -> dict_get (dict_set d k v) k' = dict_get d k'.
Proof.
  intros Hne. induction d as [|[k0 v0] d IH]; simpl.
  - destruct (String.eqb_spec k k'); [contradiction|]. reflexivity.
  - destruct (String.eqb_spec k0 k); simpl.
    + subst k0. destruct (String.eqb_spec k k'); [contradiction|]. reflexivity.
    + destruct (String.eqb_spec k0 k'); auto.
Qed.

Lemma dict_set_length {V : Type} (d : dict V) (k : string) (v : V) :
  (List.length (dict_set d k v) <= S (List.length d))%nat.
Proof.
  induction d as [|[k' v'] d IH]; simpl; [lia|].
  destruct (k' =? k)%string; simpl; lia.
Qed.

Lemma dict_del_length {V : Type} (d : dict V) (k : string) :
  (List.length (dict_del d k) <= List.length d)%nat.
Proof.
  induction d as [|[k' v'] d IH]; simpl; [lia|].
  destruct (k' =? k)%string; simpl; lia.
Qed.

Lemma dict_set_keys {V : Type} (d : dict V) (k : string) (v : V) :
  NoDup (dict_keys d) -> NoDup (dict_keys (dict_set d k v)) /\
  (forall k', In k' (dict_keys (dict_set d k v)) <-> k' = k \/ In k' (dict_keys d)).
Proof.
  unfold dict_keys.
  induction d as [|[k0 v0] d IH]; simpl; intros Hnd.
  - split; [repeat constructor; auto|]. intros k'. intuition.
  - inversion Hnd as [|? ? Hnotin Hnd']; subst.
    destruct (String.eqb_spec k0 k); simpl.
    + subst k0. split; [constructor; auto|]. intros k'. intuition.
    + destruct (IH Hnd') as [IH1 IH2]. split.
      * constructor; auto. rewrite IH2. intros [->|H]; auto.
      * intros k'. rewrite IH2. intuition.
Qed.

Lemma dict_del_keys {V : Type} (d : dict V) (k : string) :
  NoDup (dict_keys d) -> NoDup (dict_keys (dict_del d k)) /\
  (forall k', In k' (dict_keys (dict_del d k)) -> In k' (dict_keys d)).
Proof.
  unfold dict_keys.
  induction d as [|[k0 v0] d IH]; simpl; intros Hnd.
  - split; auto.
  - inversion Hnd as [|? ? Hnotin Hnd']; subst.
    destruct (String.eqb_spec k0 k); simpl.
    + split; auto.
    + destruct (IH Hnd') as [IH1 IH2]. split.
      * constructor; auto.
      * intros k' [->|H]; auto.
Qed.

Lemma dict_get_In {V : Type} (d : dict V) (k : string) (v : V) :
  NoDup (dict_keys d) -> (dict_get d k = Some v <-> In (k, v) d).
Proof.
  unfold dict_keys.
  induction d as [|[k0 v0] d IH]; simpl; intros Hnd.
  - split; [discriminate|tauto].
  - inversion Hnd as [|? ? Hnotin Hnd']; subst.
    destruct (String.eqb_spec k0 k).
    + subst k0. split.
      * intros [= ->]. auto.
      * intros [[= ->]|H]; auto. exfalso. apply Hnotin.
        apply (in_map fst) in H. exact H.
    + rewrite (IH Hnd'). split; auto.
      intros [[= -> _]|H]; [contradiction|auto].
Qed.


Lemma list_update_length {A : Type} (l : list A) (n : nat) (f : A -> A) :
  List.length (list_update l n f) = List.length l.
Proof.
  revert n. induction l as [|x l IH]; intros [|n]; simpl; auto.
Qed.

Lemma nth_error_list_update {A : Type} (l : list A) (n m : nat) (f : A -> A) :
  nth_error (list_update l n f) m =
  if Nat.eqb n m then option_map f (nth_error l m) else nth_error l m.
Proof.
  revert n m. induction l as [|x l IH]; intros n m.
  - destruct n, m; simpl; auto; destruct (Nat.eqb n m); reflexivity.
  - destruct n, m; simpl; auto.
Qed.

(** ** Persistence *)

Section Persistence.
Context {codec : IsoCodec} {laws : IsoCodecLaws codec}.

Lemma opt_time_of_of_opt_time (o : option Z) :
  opt_time_of (of_opt_time o) = Some o.
Proof.
  destruct o as [d|]; unfold opt_time_of; simpl; auto.
  destruct (String.eqb_spec (isoformat d) "") as [E|_].
  - exfalso. exact (isoformat_nonempty d E).
  - simpl. rewrite fromisoformat_isoformat. reflexivity.
Qed.

Lemma from_dict_to_dict (t : Task) : from_dict (to_dict t) = Some t.
Proof.
  destruct t as [id ty p when prio maxr delay tmo cb st rc t0 t1 res err].
  unfold from_dict, to_dict, dict_get_or. simpl.
  rewrite fromisoformat_isoformat. simpl.
  assert (Hcb : as_opt_str (of_opt_str cb) = Some cb) by (destruct cb; auto).
  assert (He : as_opt_str (of_opt_str err) = Some err) by (destruct err; auto).
  rewrite Hcb, He, !opt_time_of_of_opt_time. simpl.
  destruct t0, t1; reflexivity.
Qed.

Lemma task_data_persisted (s : Scheduler) :
  task_data s = map (fun kv => (fst kv, to_dict (snd kv))) (persisted s).
Proof.
  unfold task_data, persisted.
  induction (tasks s) as [|[id a] l IH]; simpl; auto.
  rewrite map_app, <- IH. destruct (obj s a); reflexivity.
Qed.

Lemma load_items_encoded (l : list (string * Task)) (s : Scheduler) :
  load_items (map (fun kv => (fst kv, to_dict (snd kv))) l) s =
  fold_left load_one l s.
Proof.
  revert s. induction l as [|[id t] l IH]; intros s; simpl; auto.
  rewrite from_dict_to_dict. rewrite IH. reflexivity.
Qed.


Lemma load_one_get (s : Scheduler) (kv : string * Task) :
  tasks_bound s ->
  tasks_bound (load_one s kv) /\
  forall id, get_task (load_one s kv) id =
             if (fst kv =? id)%string then Some (snd kv) else get_task s id.
Proof.
  intros Hb. destruct kv as [k t]. unfold load_one, alloc. simpl fst; simpl snd.
  set (s1 := set_tasks _ _).
  assert (H1 : tasks_bound s1 /\
               forall id, get_task s1 id =
                          if (k =? id)%string then Some t else get_task s id).
  { split.
    - intros id a. unfold s1; simpl. rewrite length_app. simpl.
      destruct (String.eqb_spec k id) as [->|Hne].
      + rewrite dict_get_set_same. intros [= <-]. lia.
      + rewrite dict_get_set_other by auto. intros H. apply Hb in H. lia.
    - intros id. unfold get_task, obj, s1; simpl.
      destruct (String.eqb_spec k id) as [->|Hne].
      + rewrite dict_get_set_same. simpl.
        rewrite nth_error_app2 by lia. rewrite Nat.sub_diag. reflexivity.
      + rewrite dict_get_set_other by auto.
        destruct (dict_get (tasks s) id) as [a|] eqn:E; simpl; auto.
        apply Hb in E. rewrite nth_error_app1 by lia. reflexivity. }
  destruct (status t =? Scheduled)%string; exact H1.
Qed.


End Persistence.

Lemma epoch_codec_laws : IsoCodecLaws epoch_codec.
Proof.
  assert (H : forall d,
             NilZero.int_of_string (str_of_int d) = Some (Z.to_int d)).
  { intros d. unfold str_of_int. apply NilZero.isi.
    - destruct d; simpl; try discriminate.
      intros [= E]. exact (DecimalPos.Unsigned.to_uint_nonnil _ E).
    - destruct d; simpl; try discriminate.
      intros [= E]. exact (DecimalPos.Unsigned.to_uint_nonnil _ E). }
  split; simpl.
  - intros d. rewrite H. simpl. rewrite DecimalZ.of_to. reflexivity.
  - intros d E. specialize (H d). rewrite E in H. discriminate.
Qed.


(** ** Scheduling a task *)



Lemma obj_alloc_new (s : Scheduler) (t : Task) :
  obj (snd (alloc t s)) (fst (alloc t s)) = Some t.
Proof.
  unfold obj, alloc. simpl. rewrite nth_error_app2 by lia.
  rewrite Nat.sub_diag. reflexivity.
Qed.



(** ** How a step changes the task objects *)

Lemma obj_mutate (a b : nat) (f : Task -> Task) (s : Scheduler) :
  obj (mutate a f s) b =
  if Nat.eqb a b then option_map f (obj s b) else obj s b.
Proof.
  unfold obj, mutate; simpl. apply nth_error_list_update.
Qed.

Section StepObjects.
Context {codec : IsoCodec}.

Lemma worker_objects (now : Z) (s : Scheduler) :
  objects (worker now s) = objects s /\ tasks (worker now s) = tasks s /\
  handlers (worker now s) = handlers s /\
  max_concurrent_tasks (worker now s) = max_concurrent_tasks s /\
  invoked (worker now s) = invoked s /\
  callbacks (worker now s) = callbacks s /\
  storage (worker now s) = storage s /\
  is_running (worker now s) = is_running s.
Proof.
  unfold worker.
  destruct (_ >=? _); [repeat split; reflexivity|].
  destruct (pq_get (task_queue s)) as [[[k id] r]|];
    [|repeat split; reflexivity].
  simpl. destruct (dict_get (tasks s) id) as [a|];
    [|repeat split; reflexivity].
  unfold obj; simpl. destruct (nth_error (objects s) a) as [t|];
    [|repeat split; reflexivity].
  destruct (status t =? Cancelled)%string; [repeat split; reflexivity|].
  destruct (schedule_time t >? now); repeat split; reflexivity.
Qed.

Lemma cancel_running_fold (l : dict nat) (s : Scheduler) :
  let s' :=
    fold_left
      (fun s '(id, r) =>
         let s := set_coros (list_update (coros s) r request_cancel) s in
         match dict_get (tasks s) id with
         | Some a => mutate a (set_status Cancelled) s
         | None => s
         end) l s in
  tasks s' = tasks s /\ running_tasks s' = running_tasks s /\
  task_queue s' = task_queue s /\
  max_concurrent_tasks s' = max_concurrent_tasks s /\
  invoked s' = invoked s /\ callbacks s' = callbacks s /\
  is_running s' = is_running s /\ handlers s' = handlers s /\
  storage s' = storage s /\
  List.length (coros s') = List.length (coros s) /\
  forall a, obj s' a = obj s a \/
            obj s' a = option_map (set_status Cancelled) (obj s a).
Proof.
  revert s. induction l as [|[id r] l IH]; intros s; simpl.
  - repeat split; auto.
  - match goal with |- context [fold_left _ l ?s1] => specialize (IH s1);
      set (s1' := s1) in * end.
    simpl in IH.
    destruct IH as (H1 & H2 & H3 & H4 & H5 & H6 & H7 & H8 & H9 & H10 & H11).
    assert (Hs1 : tasks s1' = tasks s /\ running_tasks s1' = running_tasks s /\
                  task_queue s1' = task_queue s /\
                  max_concurrent_tasks s1' = max_concurrent_tasks s /\
                  invoked s1' = invoked s /\ callbacks s1' = callbacks s /\
                  is_running s1' = is_running s /\ handlers s1' = handlers s /\
                  storage s1' = storage s /\
                  List.length (coros s1') = List.length (coros s) /\
                  forall a, obj s1' a = obj s a \/
                            obj s1' a = option_map (set_status Cancelled) (obj s a)).
    { unfold s1'. simpl. destruct (dict_get (tasks s) id) as [a0|]; simpl;
        rewrite ?list_update_length; repeat split; auto.
      intros a. rewrite obj_mutate. destruct (Nat.eqb a0 a); auto. }
    destruct Hs1 as (G1 & G2 & G3 & G4 & G5 & G6 & G7 & G8 & G9 & G10 & G11).
    repeat split; try congruence.
    intros a. destruct (H11 a) as [E|E]; destruct (G11 a) as [E'|E'];
      rewrite E, E'; auto.
    right. destruct (obj s a); reflexivity.
Qed.

Lemma step_obj (s s' : Scheduler) (e : event) :
  step s e = Some s' ->
  (forall a t, obj s a = Some t ->
               exists t', obj s' a = Some t' /\ task_step s e a t t') /\
  (forall a t', obj s' a = Some t' -> obj s a = None -> e = ESchedule t').
Proof.
  assert (Hsame : forall s1 : Scheduler, objects s1 = objects s ->
            (forall a t, task_step s e a t t) ->
            (forall a t, obj s a = Some t ->
               exists t', obj s1 a = Some t' /\ task_step s e a t t') /\
            (forall a t', obj s1 a = Some t' -> obj s a = None ->
               e = ESchedule t')).
  { intros s1 E Hr. unfold obj. rewrite E. split.
    - intros a t H. exists t. auto.
    - intros a t' H Hn. congruence. }
  assert (Hmut : forall (s1 : Scheduler) a0 f t0,
            objects s1 = list_update (objects s) a0 f ->
            obj s a0 = Some t0 -> task_step s e a0 t0 (f t0) ->
            (forall a t, task_step s e a t t) ->
            (forall a t, obj s a = Some t ->
               exists t', obj s1 a = Some t' /\ task_step s e a t t') /\
            (forall a t', obj s1 a = Some t' -> obj s a = None ->
               e = ESchedule t')).
  { intros s1 a0 f t0 E H0 Hf Hr. unfold obj in *. rewrite E. split.
    - intros a t H. rewrite nth_error_list_update, H.
      destruct (Nat.eqb_spec a0 a) as [->|Hne]; simpl; eauto.
      assert (t0 = t) by congruence. subst. eauto.
    - intros a t' H Hn. rewrite nth_error_list_update, Hn in H.
      destruct (Nat.eqb a0 a); discriminate. }
  destruct e as [ty|t0|a0|id| |now|r now|r o now| | ]; unfold step.
  - intros [= <-]. apply Hsame; simpl; auto.
  - unfold schedule_task, alloc. cbv beta iota.
    pose proof (obj_alloc_new s t0) as Hnew. simpl in Hnew. rewrite Hnew.
    simpl. intros [= <-]. unfold obj; simpl. split.
    + intros a t H. exists t. split; auto.
      rewrite nth_error_app1; auto. apply nth_error_Some. congruence.
    + intros a t' H Hn. apply nth_error_None in Hn.
      rewrite nth_error_app2 in H by lia.
      destruct (a - List.length (objects s))%nat as [|n]; simpl in H.
      * congruence.
      * destruct n; discriminate.
  - unfold schedule_task. destruct (obj s a0) as [t0|]; [|discriminate].
    simpl. intros [= <-]. apply Hsame; simpl; auto.
  - intros [= <-]. unfold cancel_task.
    destruct (get_task s id) as [t0|] eqn:Hg; [|apply Hsame; simpl; auto].
    destruct (dict_get (tasks s) id) as [a0|] eqn:Hid;
      [|apply Hsame; simpl; auto].
    destruct ((status t0 =? Scheduled)%string || (status t0 =? Running)%string)
      eqn:Hst; [|apply Hsame; simpl; auto].
    assert (Ho : obj s a0 = Some t0).
    { unfold get_task in Hg. rewrite Hid in Hg. exact Hg. }
    apply (Hmut _ a0 (set_status Cancelled) t0); simpl; auto.
    + destruct (dict_get (running_tasks s) id); reflexivity.
    + right. split; [|split; auto].
      apply orb_true_iff in Hst. unfold live.
      destruct Hst as [Hst|Hst]; apply String.eqb_eq in Hst; auto.
  - intros [= <-]. unfold start.
    destruct (is_running s); apply Hsame; simpl; auto.
  - destruct (is_running s); [|discriminate]. intros [= <-].
    apply Hsame; simpl; auto. apply worker_objects.
  - unfold execute_begin.
    destruct (nth_error (coros s) r) as [c|] eqn:Hc; [|discriminate]. simpl.
    destruct (c_state c) eqn:Hcs; try discriminate.
    destruct (c_cancel c) eqn:Hcc.
    { intros [= <-]. apply Hsame; simpl; auto. }
    destruct (obj s (c_task c)) as [t0|] eqn:Ho; [|discriminate]. simpl.
    destruct (dict_mem (handlers s) (task_type t0)) eqn:Hh; simpl;
      intros [= <-].
    + apply (Hmut _ (c_task c) (task_begin now) t0); simpl; auto.
      right. exists c. auto 10.
    + apply (Hmut _ (c_task c) fail_no_handler t0); simpl; auto.
      right. exists c. auto 10.
  - unfold execute_end.
    destruct (nth_error (coros s) r) as [c|] eqn:Hc; [|discriminate]. simpl.
    destruct (c_state c) eqn:Hcs; try discriminate.
    destruct (obj s (c_task c)) as [t0|] eqn:Ho; [|discriminate]. simpl.
    intros [= <-].
    apply (Hmut _ (c_task c) (task_end o now) t0); simpl; auto.
    + destruct (requeues o t0), (wants_callback (task_end o now t0));
        reflexivity.
    + right. exists c. auto.
  - intros [= <-]. unfold shutdown, cancel_running.
    pose proof (cancel_running_fold (running_tasks (set_is_running false s))
                  (set_is_running false s)) as H.
    simpl in H. destruct H as (_ & _ & _ & _ & _ & _ & _ & _ & _ & _ & H).
    split.
    + intros a t Ha. destruct (H a) as [E|E]; simpl; rewrite E;
        change (obj (set_is_running false s) a) with (obj s a); rewrite Ha;
        simpl; eauto.
    + intros a t' Ha Hn. exfalso. destruct (H a) as [E|E]; simpl in Ha;
        rewrite E in Ha;
        change (obj (set_is_running false s) a) with (obj s a) in Ha;
        rewrite Hn in Ha; discriminate.
  - intros [= <-]. apply Hsame; simpl; auto.
Qed.
End StepObjects.

(** ** Retries *)







(** ** Status changes *)

Lemma settle_status (o : outcome) (now : Z) (t : Task) :
  match o with
  | Success _ => status (settle o now t) = Completed
  | CancelledErr => status (settle o now t) = status t
  | _ =>
      (retry_count t < max_retries t /\ status (settle o now t) = Scheduled) \/
      (retry_count t >= max_retries t /\ status (settle o now t) = Failed)
  end.
Proof.
  destruct o as [v| |msg| ]; simpl; auto; unfold retry_or_fail; simpl;
    destruct (Z.ltb_spec (retry_count t) (max_retries t)); simpl;
    [left|right|left|right]; split; auto; lia.
Qed.

Lemma task_step_status (s : Scheduler) (e : event)
    (a : nat) (t t' : Task) :
  task_step s e a t t' -> status t' = status t \/ status_change s t t' e.
Proof.
  destruct e as [ty|t0|a0|id| |now|r now|r o now| | ]; simpl;
    try (intros ->; auto).
  - intros [->|(Hl & _ & ->)]; auto. right. constructor; auto.
  - intros [->|(c & _ & _ & _ & _ & [[Hh ->]|[Hh ->]])]; auto; right.
    + apply sc_begin_no_handler; auto.
    + apply sc_begin; auto.
  - intros [->|(c & _ & _ & _ & ->)]; auto.
    pose proof (settle_status o now t) as H.
    unfold task_end. simpl.
    destruct o as [v| |msg| ]; auto.
    + right. apply sc_end_success; auto.
    + right. destruct H as [[H1 H2]|[H1 H2]].
      * apply sc_end_retry; auto. left; reflexivity.
      * apply sc_end_failed; auto. left; reflexivity.
    + right. destruct H as [[H1 H2]|[H1 H2]].
      * apply sc_end_retry; auto. right; eauto.
      * apply sc_end_failed; auto. right; eauto.
  - intros [-> | ->]; auto. right. constructor. reflexivity.
Qed.

(** C2, as the code has it: a step changes the status of a Scheduled or
    Running task only along the state machine extended with
    Scheduled -> Failed (no handler registered), the end of a supervisor
    being applied to the task it marked Running; [schedule_task], the
    dispatcher and [cancel_task] never change the status of a Completed,
    Failed or Cancelled task; Completed is reached only at the successful
    end of a supervisor, Failed only at its start without a handler or at
    its end with the retries exhausted. *)
Theorem C2_status_transitions {codec : IsoCodec}
    (s s' : Scheduler) (e : event) (a : nat) (t t' : Task) :
  step s e = Some s' -> obj s a = Some t -> obj s' a = Some t' ->
  (live (status t) ->
   (forall r o now, e = EEnd r o now -> status t = Running) ->
   status t' = status t \/ transition (status t) (status t')) /\
  ((forall r now, e <> EBegin r now) ->
   (forall r o now, e <> EEnd r o now) ->
   e <> EShutdown ->
   status t' = status t \/
   (live (status t) /\ status t' = Cancelled /\ exists id, e = ECancel id)) /\
  (status t' = Completed -> status t <> Completed ->
   exists r v now, e = EEnd r (Success v) now) /\
  (status t' = Failed -> status t <> Failed ->
   (exists r now, e = EBegin r now /\
                  dict_mem (handlers s) (task_type t) = false) \/
   (exists r o now, e = EEnd r o now /\ is_failure o /\
                    retry_count t >= max_retries t)).
Proof.
  intros Hstep Ho Ho'.
  destruct (step_obj _ _ _ Hstep) as [Hold _].
  destruct (Hold _ _ Ho) as (t1 & Ht1 & Hts).
  assert (t1 = t') by congruence. subst t1.
  destruct (task_step_status _ _ _ _ _ Hts) as [E|Hsc].
  { repeat split; intros; auto; congruence. }
  split; [|split; [|split]].
  - intros Hl Hend.
    destruct Hsc as [id Hl' E|r now Hh E|r now Hh E|r v now E|r o now Hf Hlt E
                    |r o now Hf Hge E|E]; rewrite E.
    + right. destruct Hl as [-> | ->]; constructor.
    + right. destruct Hl as [-> | ->]; constructor.
    + destruct Hl as [-> | ->]; [right; constructor|left; reflexivity].
    + right. rewrite (Hend _ _ _ eq_refl). constructor.
    + right. rewrite (Hend _ _ _ eq_refl). constructor.
    + right. rewrite (Hend _ _ _ eq_refl). constructor.
    + right. destruct Hl as [-> | ->]; constructor.
  - intros Hb He Hs.
    destruct Hsc; try (exfalso; eapply Hb; reflexivity);
      try (exfalso; eapply He; reflexivity); try contradiction.
    right. eauto.
  - intros E Hne.
    destruct Hsc; try (unfold Completed, Cancelled, Failed, Running, Scheduled in *;
                       congruence).
    eauto.
  - intros E Hne.
    destruct Hsc; try (unfold Completed, Cancelled, Failed, Running, Scheduled in *;
                       congruence).
    + left. eauto.
    + right. eauto 10.
Qed.

(** ** The running set *)

Section Frame.
Context {codec : IsoCodec}.

(** What a step may do to [self.tasks] and [self.running_tasks]. *)
Lemma step_frame (s s' : Scheduler) (e : event) :
  step s e = Some s' ->
  max_concurrent_tasks s' = max_concurrent_tasks s /\
  (tasks s' = tasks s \/
   exists id a, tasks s' = dict_set (tasks s) id a /\ obj s' a <> None) /\
  (running_tasks s' = running_tasks s \/
   (exists r o now c t,
       e = EEnd r o now /\ nth_error (coros s) r = Some c /\
       c_state c = Waiting /\ obj s (c_task c) = Some t /\
       running_tasks s' = dict_del (running_tasks s) (task_id t)) \/
   (exists now id r,
       e = EWorker now /\
       Z.of_nat (List.length (running_tasks s)) < max_concurrent_tasks s /\
       running_tasks s' = dict_set (running_tasks s) id r)).
Proof.
  destruct e as [ty|t0|a0|id| |now|r now|r o now| | ]; unfold step.
  - intros [= <-]. simpl. auto.
  - unfold schedule_task, alloc. cbv beta iota.
    pose proof (obj_alloc_new s t0) as Hnew. simpl in Hnew. rewrite Hnew.
    simpl. intros [= <-]. simpl. split; auto. split; auto.
    right. do 2 eexists. split; [reflexivity|].
    unfold obj in *. simpl in *. rewrite Hnew. discriminate.
  - unfold schedule_task. destruct (obj s a0) as [t0|] eqn:Ho; [|discriminate].
    simpl. intros [= <-]. simpl. split; auto. split; auto.
    right. do 2 eexists. split; [reflexivity|].
    unfold obj in *. simpl in *. rewrite Ho. discriminate.
  - intros [= <-]. unfold cancel_task.
    destruct (get_task s id) as [t0|]; [|simpl; auto].
    destruct (dict_get (tasks s) id) as [a0|]; [|simpl; auto].
    destruct ((status t0 =? Scheduled)%string || (status t0 =? Running)%string);
      [|simpl; auto].
    simpl. destruct (dict_get (running_tasks s) id); simpl; auto.
  - intros [= <-]. unfold start. destruct (is_running s); simpl; auto.
  - destruct (is_running s); [|discriminate]. intros [= <-].
    destruct (worker_objects now s) as (_ & Et & _ & Em & _).
    split; auto. split; auto.
    unfold worker.
    destruct (Z.geb_spec (Z.of_nat (List.length (running_tasks s)))
                (max_concurrent_tasks s)) as [Hge|Hlt]; auto.
    destruct (pq_get (task_queue s)) as [[[k id] q']|]; auto.
    simpl. destruct (dict_get (tasks s) id) as [a|]; auto.
    unfold obj; simpl. destruct (nth_error (objects s) a) as [t|]; auto.
    destruct (status t =? Cancelled)%string; auto.
    destruct (schedule_time t >? now); simpl; auto.
    right. right. exists now, id, (List.length (coros s)). auto.
  - unfold execute_begin.
    destruct (nth_error (coros s) r) as [c|]; [|discriminate]. simpl.
    destruct (c_state c); try discriminate.
    destruct (c_cancel c); [intros [= <-]; simpl; auto|].
    destruct (obj s (c_task c)) as [t0|]; [|discriminate]. simpl.
    destruct (dict_mem (handlers s) (task_type t0)); simpl;
      intros [= <-]; simpl; auto.
  - unfold execute_end.
    destruct (nth_error (coros s) r) as [c|] eqn:Hc; [|discriminate]. simpl.
    destruct (c_state c) eqn:Hcs; try discriminate.
    destruct (obj s (c_task c)) as [t0|] eqn:Ho; [|discriminate]. simpl.
    intros [= <-].
    assert (Hid : task_id (settle o now t0) = task_id t0).
    { destruct o as [v| |msg| ]; simpl; auto; unfold retry_or_fail; simpl;
        destruct (retry_count t0 <? max_retries t0); reflexivity. }
    destruct (requeues o t0), (wants_callback (task_end o now t0)); simpl;
      (split; [reflexivity|split; [left; reflexivity|right; left]]);
      exists r, o, now, c, t0; rewrite Hid; auto 10.
  - intros [= <-]. unfold shutdown, cancel_running.
    pose proof (cancel_running_fold (running_tasks (set_is_running false s))
                  (set_is_running false s)) as H.
    simpl in H. destruct H as (H1 & H2 & _ & H4 & _).
    simpl. auto.
  - intros [= <-]. simpl. auto.
Qed.

Lemma load_items_frame (items : dict (dict pyval)) (s : Scheduler) :
  max_concurrent_tasks (load_items items s) = max_concurrent_tasks s /\
  running_tasks (load_items items s) = running_tasks s /\
  coros (load_items items s) = coros s /\
  (NoDup (dict_keys (tasks s)) -> tasks_bound s ->
   NoDup (dict_keys (tasks (load_items items s))) /\
   tasks_bound (load_items items s)).
Proof.
  revert s. induction items as [|[id data] items IH]; intros s; simpl.
  { auto. }
  destruct (from_dict data) as [t|]; [|auto].
  match goal with |- context [load_items items ?s1] => set (s1' := s1) end.
  assert (H1 : max_concurrent_tasks s1' = max_concurrent_tasks s /\
               running_tasks s1' = running_tasks s /\
               coros s1' = coros s /\
               (NoDup (dict_keys (tasks s)) -> tasks_bound s ->
                NoDup (dict_keys (tasks s1')) /\ tasks_bound s1')).
  { assert (Hb' : tasks_bound s ->
                  tasks_bound (set_tasks
                    (dict_set (tasks s) id (List.length (objects s)))
                    (set_objects (objects s ++ [t])%list s))).
    { intros Hb id' a'. simpl. rewrite length_app. simpl.
      destruct (String.eqb_spec id id') as [->|Hne].
      - rewrite dict_get_set_same. intros [= <-]. lia.
      - rewrite dict_get_set_other by auto. intros H. apply Hb in H. lia. }
    unfold s1'. destruct (status t =? Scheduled)%string; simpl;
      (split; [reflexivity|split; [reflexivity|split; [reflexivity|]]]);
      intros Hnd Hb; (split; [apply dict_set_keys; assumption|]);
      apply Hb'; assumption. }
  destruct (IH s1') as (E1 & E2 & E3 & E4).
  destruct H1 as (G1 & G2 & G3 & G4).
  split; [congruence|split; [congruence|split; [congruence|]]].
  intros Hnd Hb. destruct (G4 Hnd Hb) as [K1 K2]. apply E4; assumption.
Qed.

Lemma init_wf (N : Z) (file : option (dict (dict pyval))) :
  wf (TaskScheduler_init N file) /\
  max_concurrent_tasks (TaskScheduler_init N file) = N.
Proof.
  unfold TaskScheduler_init, load_tasks. simpl.
  destruct file as [items|]; simpl.
  - match goal with |- context [load_items items ?s1] =>
      destruct (load_items_frame items s1) as (E1 & E2 & _ & E4) end.
    simpl in *. unfold wf. rewrite E1, E2. simpl.
    destruct E4 as [H1 H2]; [constructor|intros id a; discriminate|].
    repeat split; auto; try constructor; lia.
  - unfold wf; simpl. repeat split; try constructor; try lia.
    intros id a; discriminate.
Qed.

Lemma step_wf (s s' : Scheduler) (e : event) :
  step s e = Some s' -> wf s -> wf s'.
Proof.
  intros Hstep (Hnd & Hb & Hndr & Hlen).
  destruct (step_frame _ _ _ Hstep) as (Em & Ht & Hr).
  destruct (step_obj _ _ _ Hstep) as [Hold _].
  assert (Halloc : forall a, (a < List.length (objects s))%nat ->
                             (a < List.length (objects s'))%nat).
  { intros a Ha. apply nth_error_Some in Ha.
    destruct (obj s a) as [t|] eqn:Ho; [|unfold obj in Ho; congruence].
    destruct (Hold _ _ Ho) as (t' & Ht' & _).
    apply nth_error_Some. unfold obj in Ht'. congruence. }
  unfold wf. rewrite Em. split; [|split; [|split]].
  - destruct Ht as [->|(id & a & -> & _)]; auto. apply dict_set_keys; auto.
  - intros id a. destruct Ht as [->|(id0 & a0 & -> & Ha0)].
    + intros H. apply Halloc. eapply Hb; eauto.
    + destruct (String.eqb_spec id0 id) as [->|Hne].
      * rewrite dict_get_set_same. intros [= <-].
        apply nth_error_Some. exact Ha0.
      * rewrite dict_get_set_other by auto. intros H.
        apply Halloc. eapply Hb; eauto.
  - destruct Hr as [->|[(r & o & now & c & t & _ & _ & _ & _ & ->)
                       |(now & id & r & _ & _ & ->)]]; auto.
    + apply dict_del_keys; auto.
    + apply dict_set_keys; auto.
  - destruct Hr as [->|[(r & o & now & c & t & _ & _ & _ & _ & ->)
                       |(now & id & r & _ & Hlt & ->)]]; auto.
    + pose proof (dict_del_length (running_tasks s) (task_id t)). lia.
    + pose proof (dict_set_length (running_tasks s) id r). lia.
Qed.

Lemma run_wf (tr : list event) : forall s s',
  run s tr = Some s' -> wf s ->
  wf s' /\ max_concurrent_tasks s' = max_concurrent_tasks s.
Proof.
  induction tr as [|e tr IH]; simpl; intros s s' Hrun Hwf.
  - injection Hrun as <-. auto.
  - destruct (step s e) as [s1|] eqn:Hstep; [|discriminate]. simpl in Hrun.
    destruct (IH _ _ Hrun (step_wf _ _ _ Hstep Hwf)) as [H1 H2].
    split; auto. rewrite H2. apply (step_frame _ _ _ Hstep).
Qed.
(** Every state reached from a newly created scheduler is well formed. *)
Lemma reachable_wf (N : Z) (file : option (dict (dict pyval)))
    (tr : list event) (s : Scheduler) :
  run (TaskScheduler_init N file) tr = Some s -> wf s.
Proof.
  intros Hrun. destruct (init_wf N file) as [Hwf _].
  apply (run_wf _ _ _ Hrun Hwf).
Qed.
End Frame.

(** C6, as the code has it: in every state reached from a newly created
    scheduler the running set holds at most [max_concurrent_tasks] entries
    (none when that number is negative), under distinct ids; an iteration of
    the dispatcher that finds it full changes nothing, and one that starts
    a supervisor found it holding fewer than [max_concurrent_tasks]
    entries. *)
Theorem C6_running_set_bound {codec : IsoCodec} :
  (forall N file tr s,
      run (TaskScheduler_init N file) tr = Some s ->
      max_concurrent_tasks s = N /\
      NoDup (dict_keys (running_tasks s)) /\
      Z.of_nat (List.length (running_tasks s)) <= Z.max 0 N) /\
  (forall s now,
      Z.of_nat (List.length (running_tasks s)) >= max_concurrent_tasks s ->
      worker now s = s /\ step s (EWorker now) = (if is_running s then Some s else None)) /\
  (forall s now,
      coros (worker now s) <> coros s ->
      Z.of_nat (List.length (running_tasks s)) < max_concurrent_tasks s).
Proof.
  split; [|split].
  - intros N file tr s Hrun.
    destruct (init_wf N file) as [Hwf HN].
    destruct (run_wf _ _ _ Hrun Hwf) as [(_ & _ & H3 & H4) Hm].
    rewrite Hm, HN in *. auto.
  - intros s now Hge.
    assert (E : worker now s = s).
    { unfold worker.
      destruct (Z.geb_spec (Z.of_nat (List.length (running_tasks s)))
                  (max_concurrent_tasks s)); [reflexivity|lia]. }
    split; auto. simpl. rewrite E. reflexivity.
  - intros s now Hne. unfold worker in Hne.
    destruct (Z.geb_spec (Z.of_nat (List.length (running_tasks s)))
                (max_concurrent_tasks s)); [contradiction|lia].
Qed.

(** ** How a step changes the coroutines *)

Section StepCoros.
Context {codec : IsoCodec}.



End StepCoros.

(** ** Cancellation *)

Section Cancel.
Context {codec : IsoCodec}.

Lemma cancel_task_true (s : Scheduler) (id : string) :
  fst (cancel_task id s) = true <->
  exists t, get_task s id = Some t /\ live (status t).
Proof.
  unfold cancel_task, get_task, live.
  destruct (dict_get (tasks s) id) as [a|]; simpl.
  - destruct (obj s a) as [t|]; simpl.
    + destruct (String.eqb_spec (status t) Scheduled) as [E1|E1];
        destruct (String.eqb_spec (status t) Running) as [E2|E2]; simpl;
        split; eauto; try discriminate.
      intros (t' & [= <-] & [H|H]); contradiction.
    + split; [discriminate|]. intros (t & H & _). discriminate.
  - split; [discriminate|]. intros (t & H & _). discriminate.
Qed.

Lemma cancel_task_false (s : Scheduler) (id : string) :
  fst (cancel_task id s) = false -> snd (cancel_task id s) = s.
Proof.
  unfold cancel_task.
  destruct (get_task s id) as [t|]; auto.
  destruct (dict_get (tasks s) id) as [a|]; auto.
  destruct ((status t =? Scheduled)%string || (status t =? Running)%string);
    simpl; auto. discriminate.
Qed.

Lemma cancel_task_effect (s : Scheduler) (id : string) (a : nat) (t : Task) :
  dict_get (tasks s) id = Some a -> obj s a = Some t -> live (status t) ->
  let s' := snd (cancel_task id s) in
  fst (cancel_task id s) = true /\
  obj s' a = Some (set_status Cancelled t) /\
  (forall b, b <> a -> obj s' b = obj s b) /\
  tasks s' = tasks s /\ task_queue s' = task_queue s /\
  running_tasks s' = running_tasks s /\ invoked s' = invoked s /\
  callbacks s' = callbacks s /\
  storage s' = Some (task_data s') /\
  coros s' =
    match dict_get (running_tasks s) id with
    | Some r => list_update (coros s) r request_cancel
    | None => coros s
    end.
Proof.
  intros Hid Ho Hl. unfold cancel_task, get_task. rewrite Hid. simpl.
  rewrite Ho.
  assert (E : (status t =? Scheduled)%string || (status t =? Running)%string
              = true).
  { destruct Hl as [-> | ->]; reflexivity. }
  rewrite E.
  assert (Ha : forall b, obj (mutate a (set_status Cancelled) s) b =
                         if Nat.eqb a b then option_map (set_status Cancelled) (obj s b)
                         else obj s b) by (intros; apply obj_mutate).
  simpl. destruct (dict_get (running_tasks s) id) as [r|]; simpl;
    (split; [reflexivity|split; [|split; [|repeat split]]]).
  - change (obj (mutate a (set_status Cancelled) s) a = Some (set_status Cancelled t)).
    rewrite Ha, Nat.eqb_refl, Ho. reflexivity.
  - intros b Hne.
    change (obj (mutate a (set_status Cancelled) s) b = obj s b).
    rewrite Ha. destruct (Nat.eqb_spec a b); congruence.
  - change (obj (mutate a (set_status Cancelled) s) a = Some (set_status Cancelled t)).
    rewrite Ha, Nat.eqb_refl, Ho. reflexivity.
  - intros b Hne.
    change (obj (mutate a (set_status Cancelled) s) b = obj s b).
    rewrite Ha. destruct (Nat.eqb_spec a b); congruence.
Qed.



End Cancel.


(** ** Execution without a registered handler *)

Lemma step_running_entry {codec : IsoCodec} (s s' : Scheduler) (e : event)
    (id : string) :
  step s e = Some s' -> dict_mem (running_tasks s) id = true ->
  dict_mem (running_tasks s') id = true \/
  exists r o now c t,
    e = EEnd r o now /\ nth_error (coros s) r = Some c /\
    c_state c = Waiting /\ obj s (c_task c) = Some t /\ task_id t = id.
Proof.
  assert (Hset : forall (d : dict nat) k v,
             dict_mem d id = true -> dict_mem (dict_set d k v) id = true).
  { intros d k v. unfold dict_mem.
    destruct (String.eqb_spec k id) as [->|Hne].
    - rewrite dict_get_set_same. auto.
    - rewrite dict_get_set_other by auto. auto. }
  assert (Hdel : forall (d : dict nat) k,
             k <> id -> dict_mem d id = true -> dict_mem (dict_del d k) id = true).
  { intros d k Hne. unfold dict_mem.
    induction d as [|[k0 v0] d IH]; simpl; auto.
    destruct (String.eqb_spec k0 k) as [->|Hk]; simpl.
    - destruct (String.eqb_spec k id); [contradiction|auto].
    - destruct (String.eqb_spec k0 id); auto. }
  intros Hstep Hmem.
  destruct (step_frame _ _ _ Hstep)
    as (_ & _ & [->|[(r & o & now & c & t & He & Hc & Hcs & Ho & ->)
                    |(now & k & r & _ & _ & ->)]]); auto.
  destruct (String.eqb_spec (task_id t) id) as [Heq|Hne].
  - right. exists r, o, now, c, t. auto.
  - left. apply Hdel; auto.
Qed.

(** C9: executing a task whose type has no handler marks it Failed with
    the no-handler message and returns at once: [start_time] and
    [end_time] keep the values they had ([None] for a task that never
    ran), the running set is left as it is, so the entry the dispatcher
    made for the task is still there when the coroutine is done.  The
    coroutine never runs again, and the entry can only be removed by the
    end of another supervisor working on a task of the same id. *)
Theorem C9_no_handler_keeps_running_entry {codec : IsoCodec} :
  (forall s r now c t,
      nth_error (coros s) r = Some c -> c_state c = Pending ->
      c_cancel c = false -> obj s (c_task c) = Some t ->
      dict_mem (handlers s) (task_type t) = false ->
      exists s' t',
        execute_begin r now s = Some s' /\ obj s' (c_task c) = Some t' /\
        status t' = Failed /\ error t' = Some (no_handler_message t) /\
        start_time t' = start_time t /\ end_time t' = end_time t /\
        running_tasks s' = running_tasks s /\
        max_concurrent_tasks s' = max_concurrent_tasks s /\
        nth_error (coros s') r = Some (set_cstate Finished c) /\
        (forall now', execute_begin r now' s' = None) /\
        (forall o now', execute_end r o now' s' = None)) /\
  (forall s now m q a t now',
      Z.of_nat (List.length (running_tasks s)) < max_concurrent_tasks s ->
      pq_get (task_queue s) = Some (m, q) ->
      dict_get (tasks s) (snd m) = Some a -> obj s a = Some t ->
      status t <> Cancelled -> schedule_time t <= now ->
      dict_mem (handlers s) (task_type t) = false ->
      exists s' t',
        execute_begin (List.length (coros s)) now' (worker now s) = Some s' /\
        obj s' a = Some t' /\ status t' = Failed /\
        start_time t' = start_time t /\ end_time t' = end_time t /\
        dict_get (running_tasks s') (snd m) = Some (List.length (coros s))) /\
  (forall s e s' id,
      step s e = Some s' -> dict_mem (running_tasks s) id = true ->
      dict_mem (running_tasks s') id = true \/
      exists r o now c t,
        e = EEnd r o now /\ nth_error (coros s) r = Some c /\
        c_state c = Waiting /\ obj s (c_task c) = Some t /\ task_id t = id).
Proof.
  assert (H1 : forall s r now c t,
      nth_error (coros s) r = Some c -> c_state c = Pending ->
      c_cancel c = false -> obj s (c_task c) = Some t ->
      dict_mem (handlers s) (task_type t) = false ->
      exists s' t',
        execute_begin r now s = Some s' /\ obj s' (c_task c) = Some t' /\
        status t' = Failed /\ error t' = Some (no_handler_message t) /\
        start_time t' = start_time t /\ end_time t' = end_time t /\
        running_tasks s' = running_tasks s /\
        max_concurrent_tasks s' = max_concurrent_tasks s /\
        nth_error (coros s') r = Some (set_cstate Finished c) /\
        (forall now', execute_begin r now' s' = None) /\
        (forall o now', execute_end r o now' s' = None)).
  { intros s r now c t Hc Hcs Hcc Ho Hh.
    unfold execute_begin at 1. rewrite Hc. simpl. rewrite Hcs, Hcc, Ho. simpl.
    rewrite Hh. simpl. eexists. exists (fail_no_handler t).
    split; [reflexivity|].
    assert (Hr : nth_error (list_update (coros s) r (set_cstate Finished)) r =
                 Some (set_cstate Finished c)).
    { rewrite nth_error_list_update, Nat.eqb_refl, Hc. reflexivity. }
    split.
    { unfold obj in *. simpl. rewrite nth_error_list_update, Nat.eqb_refl, Ho.
      reflexivity. }
    repeat split; auto.
    - intros now'. unfold execute_begin. simpl. rewrite Hr. reflexivity.
    - intros o now'. unfold execute_end. simpl. rewrite Hr. reflexivity. }
  split; [exact H1|]. split; [|intros; eapply step_running_entry; eauto].
  intros s now m q a t now' Hcap Hget Hid Ho Hst Htm Hh.
  assert (Hcap' : (Z.of_nat (List.length (running_tasks s))
                   >=? max_concurrent_tasks s) = false).
  { destruct (Z.geb_spec (Z.of_nat (List.length (running_tasks s)))
                (max_concurrent_tasks s)); [lia|reflexivity]. }
  rewrite (worker_dispatch now s m q a t Hcap' Hget Hid Ho Hst Htm).
  match goal with |- context [execute_begin _ _ ?S] => set (s1 := S) end.
  destruct (H1 s1 (List.length (coros s)) now' (mkCoro a Pending false) t)
    as (s' & t' & He & Ho' & Hs' & _ & Hst' & Het' & Hr & _); auto.
  - unfold s1. simpl. rewrite nth_error_app2 by lia.
    rewrite Nat.sub_diag. reflexivity.
  - exists s', t'. repeat split; auto.
    rewrite Hr. unfold s1. simpl. apply dict_get_set_same.
Qed.

(** ** Result and error *)

Lemma attempt_payload (x : outcome * Z * Z) (t : Task) :
  match fst (fst x) with
  | Success v =>
      status (attempt x t) = Completed /\ result (attempt x t) = v /\
      error (attempt x t) = error t
  | CancelledErr =>
      result (attempt x t) = result t /\ error (attempt x t) = error t
  | _ =>
      result (attempt x t) = result t /\ error (attempt x t) <> None /\
      (retry_count t >= max_retries t -> status (attempt x t) = Failed) /\
      (retry_count t < max_retries t -> status (attempt x t) = Scheduled)
  end.
Proof.
  destruct x as [[o b] e]. destruct o as [v| |msg| ]; simpl; auto;
    unfold retry_or_fail; simpl;
    destruct (Z.ltb_spec (retry_count t) (max_retries t)); simpl;
    repeat split; intros; try lia; auto; discriminate.
Qed.

Lemma attempts_failed (xs : list (outcome * Z * Z)) : forall t,
  Forall failed_attempt xs ->
  result (attempts xs t) = result t /\
  (xs <> [] -> error (attempts xs t) <> None) /\
  (xs = [] -> error (attempts xs t) = error t).
Proof.
  induction xs as [|x xs IH] using rev_ind; intros t Hf.
  - simpl. split; [reflexivity|split; [congruence|reflexivity]].
  - apply Forall_app in Hf. destruct Hf as [Hf Hx].
    inversion Hx as [|? ? Hx' _]; subst.
    unfold attempts. rewrite fold_left_app. simpl.
    fold (attempts xs t). destruct (IH t Hf) as (Hr & _ & _).
    pose proof (attempt_payload x (attempts xs t)) as H.
    destruct x as [[o b] e]. unfold failed_attempt in Hx'. simpl in Hx'.
    destruct Hx' as [->|[msg ->]]; simpl fst in H;
      destruct H as (H1 & H2 & _); (split; [congruence|split; auto]);
      intros E; destruct xs; discriminate.
Qed.

Lemma execute_attempt {codec : IsoCodec} (s : Scheduler) (r : nat)
    (b e : Z) (o : outcome) (c : Coro) (t : Task) :
  nth_error (coros s) r = Some c -> c_state c = Pending ->
  c_cancel c = false -> obj s (c_task c) = Some t ->
  dict_mem (handlers s) (task_type t) = true ->
  exists s1 s2,
    execute_begin r b s = Some s1 /\ execute_end r o e s1 = Some s2 /\
    obj s2 (c_task c) = Some (attempt (o, b, e) t).
Proof.
  intros Hc Hcs Hcc Ho Hh.
  unfold execute_begin. rewrite Hc. simpl. rewrite Hcs, Hcc, Ho. simpl.
  rewrite Hh. simpl. eexists. eexists. split; [reflexivity|].
  unfold execute_end. simpl.
  rewrite nth_error_list_update, Nat.eqb_refl, Hc. simpl.
  unfold obj in *. simpl.
  rewrite nth_error_list_update, Nat.eqb_refl, Ho. simpl.
  split; [reflexivity|].
  destruct (requeues o (task_begin b t)),
    (wants_callback (task_end o e (task_begin b t))); simpl;
    rewrite !nth_error_list_update, Nat.eqb_refl, Ho; reflexivity.
Qed.

(** C8, as the code has it: an attempt that fails sets the error and
    leaves the result alone, a successful one sets the result to the
    handler's value and leaves the error alone.  So a new task that ends
    Failed after any number of failed attempts has an error and no result;
    one that completes has the handler's value as its result and, as its
    error, whatever the failed attempts before left: none if there was no
    such attempt, the message of the last one otherwise. *)
Theorem C8_result_and_error {codec : IsoCodec} :
  (forall s r b e o c t,
      nth_error (coros s) r = Some c -> c_state c = Pending ->
      c_cancel c = false -> obj s (c_task c) = Some t ->
      dict_mem (handlers s) (task_type t) = true ->
      exists s1 s2,
        execute_begin r b s = Some s1 /\ execute_end r o e s1 = Some s2 /\
        obj s2 (c_task c) = Some (attempt (o, b, e) t)) /\
  (forall x t,
      match fst (fst x) with
      | Success v =>
          status (attempt x t) = Completed /\ result (attempt x t) = v /\
          error (attempt x t) = error t
      | CancelledErr =>
          result (attempt x t) = result t /\ error (attempt x t) = error t
      | _ =>
          result (attempt x t) = result t /\ error (attempt x t) <> None /\
          (retry_count t >= max_retries t -> status (attempt x t) = Failed) /\
          (retry_count t < max_retries t -> status (attempt x t) = Scheduled)
      end) /\
  (forall t,
      result (fail_no_handler t) = result t /\
      error (fail_no_handler t) = Some (no_handler_message t) /\
      status (fail_no_handler t) = Failed) /\
  (forall t xs,
      result t = PNone -> error t = None -> Forall failed_attempt xs ->
      xs <> [] ->
      result (attempts xs t) = PNone /\ error (attempts xs t) <> None) /\
  (forall t xs v b e,
      result t = PNone -> error t = None -> Forall failed_attempt xs ->
      let t' := attempt (Success v, b, e) (attempts xs t) in
      status t' = Completed /\ result t' = v /\
      (xs = [] -> error t' = None) /\
      (xs <> [] -> error t' <> None)).
Proof.
  split; [intros; eapply execute_attempt; eauto|].
  split; [exact attempt_payload|].
  split; [intros t; repeat split|].
  split.
  - intros t xs Hr He Hf Hne.
    destruct (attempts_failed xs t Hf) as (H1 & H2 & _).
    split; [congruence|auto].
  - intros t xs v b e Hr He Hf t'.
    destruct (attempts_failed xs t Hf) as (H1 & H2 & H3).
    pose proof (attempt_payload (Success v, b, e) (attempts xs t)) as H.
    simpl fst in H. destruct H as (G1 & G2 & G3). fold t' in G1, G2, G3.
    split; [exact G1|split; [exact G2|split]].
    + intros E. rewrite G3, (H3 E). exact He.
    + intros E. rewrite G3. auto.
Qed.

(** * Runs of the scheduler *)

(** ** What the runs show *)

(** C3: a task of a type without handler is dispatched and executed.  It
    ends Failed with the no-handler message, is not retried and the state
    is saved, but no callback is posted although its [callback_url] is
    set; a task that fails in its handler does get its callback. *)
Theorem C3_no_handler_sends_no_callback :
  exists s s',
    ex_run 5 None (ex_dispatch_unhandled ++ [EBegin 0%nat 10]) = Some s /\
    get_task s "t1" = Some (fail_no_handler ex_mail) /\
    status (fail_no_handler ex_mail) = Failed /\
    error (fail_no_handler ex_mail) =
      Some "No handler registered for task type: email" /\
    retry_count (fail_no_handler ex_mail) = 0 /\
    callback_url (fail_no_handler ex_mail) = Some "http://cb" /\
    task_queue s = [] /\
    storage s = Some [("t1", @to_dict epoch_codec (fail_no_handler ex_mail))] /\
    callbacks s = [] /\
    ex_run 5 None ex_handler_fails = Some s' /\
    option_map status (get_task s' "t1") = Some Failed /\
    map fst (callbacks s') = ["http://cb"].
Proof.
  eexists. eexists.
  split; [vm_compute; reflexivity|].
  repeat (split; [vm_compute; reflexivity|]).
  vm_compute; reflexivity.
Qed.

(** Against C2 as stated: the task of [ex_dispatch_unhandled] is still
    Scheduled when its supervisor starts and Failed right after, without
    having been Running; [shutdown] then finds its id in the running set
    and turns the Failed task into a Cancelled one. *)
Lemma C2_counterexample :
  exists s1 s2 s3,
    ex_run 5 None ex_dispatch_unhandled = Some s1 /\
    @step epoch_codec s1 (EBegin 0%nat 10) = Some s2 /\
    @step epoch_codec s2 EShutdown = Some s3 /\
    option_map status (get_task s1 "t1") = Some Scheduled /\
    option_map status (get_task s2 "t1") = Some Failed /\
    option_map status (get_task s3 "t1") = Some Cancelled.
Proof.
  do 3 eexists.
  split; [vm_compute; reflexivity|].
  split; [vm_compute; reflexivity|].
  split; [vm_compute; reflexivity|].
  repeat split; vm_compute; reflexivity.
Qed.

(** Against C6 as stated: with [max_concurrent_tasks = 2] the run
    [ex_overrun] reaches a state with three tasks in status Running and
    three supervisors waiting for their handlers; and a scheduler created
    with [max_concurrent_tasks = 1] on the file of a killed process has two
    tasks in status Running once it runs one of its own. *)
Lemma C6_counterexample :
  (exists s,
      ex_run 2 None ex_overrun = Some s /\
      max_concurrent_tasks s = 2 /\ count_running s = 3%nat /\
      Z.of_nat (count_running s) > max_concurrent_tasks s /\
      map c_state (coros s) = [Finished; Waiting; Waiting; Waiting]) /\
  (exists s,
      ex_run 1 ex_crash_file ex_after_restart = Some s /\
      max_concurrent_tasks s = 1 /\ count_running s = 2%nat /\
      Z.of_nat (count_running s) > max_concurrent_tasks s).
Proof.
  split; eexists; (split; [vm_compute; reflexivity|]);
    repeat split; vm_compute; reflexivity.
Qed.

(** Against C8 as stated: the task of [ex_retry_then_complete] fails,
    is retried and completes; it then carries both the result of the
    second attempt and the error of the first. *)
Lemma C8_counterexample :
  exists s t,
    ex_run 5 None ex_retry_then_complete = Some s /\
    get_task s "t2" = Some t /\
    status t = Completed /\ result t = PInt 7 /\ error t = Some "boom".
Proof.
  do 2 eexists.
  split; [vm_compute; reflexivity|].
  split; [vm_compute; reflexivity|].
  repeat split; vm_compute; reflexivity.
Qed.

(** ** The theorems at work on the example runs *)


(** C2 on the start of the supervisor of [ex_dispatch_unhandled]. *)
Lemma C2_status_transitions_witness :
  @step epoch_codec (ex_state 5 None ex_dispatch_unhandled) (EBegin 0%nat 10) =
    Some (ex_state 5 None (ex_dispatch_unhandled ++ [EBegin 0%nat 10])) /\
  obj (ex_state 5 None ex_dispatch_unhandled) 0 = Some ex_mail /\
  obj (ex_state 5 None (ex_dispatch_unhandled ++ [EBegin 0%nat 10])) 0 =
    Some (fail_no_handler ex_mail) /\
  live (status ex_mail) /\
  (status (fail_no_handler ex_mail) = status ex_mail \/
   transition (status ex_mail) (status (fail_no_handler ex_mail))).
Proof.
  assert (H1 : @step epoch_codec (ex_state 5 None ex_dispatch_unhandled)
                 (EBegin 0%nat 10) =
               Some (ex_state 5 None (ex_dispatch_unhandled ++ [EBegin 0%nat 10])))
    by (vm_compute; reflexivity).
  assert (H2 : obj (ex_state 5 None ex_dispatch_unhandled) 0 = Some ex_mail)
    by (vm_compute; reflexivity).
  assert (H3 : obj (ex_state 5 None (ex_dispatch_unhandled ++ [EBegin 0%nat 10])) 0 =
               Some (fail_no_handler ex_mail))
    by (vm_compute; reflexivity).
  assert (H4 : live (status ex_mail)) by (left; reflexivity).
  split; [exact H1|split; [exact H2|split; [exact H3|split; [exact H4|]]]].
  apply (proj1 (@C2_status_transitions epoch_codec _ _ _ _ _ _ H1 H2 H3) H4).
  intros r o now E. discriminate E.
Defined.

(** C4 on two tasks ready together: the item of [b] is not the one taken. *)
Lemma C4_ready_queue_order_witness :
  In (qitem_of ex_a "a") (task_queue (ex_state 5 None ex_two_ready)) /\
  qitem_ltb (qitem_of ex_a "a") (qitem_of ex_b "b") = true /\
  popped (ex_state 5 None ex_two_ready) <> Some (qitem_of ex_b "b").
Proof.
  assert (H1 : In (qitem_of ex_a "a") (task_queue (ex_state 5 None ex_two_ready)))
    by (vm_compute; auto).
  assert (H2 : qitem_ltb (qitem_of ex_a "a") (qitem_of ex_b "b") = true)
    by (vm_compute; reflexivity).
  split; [exact H1|split; [exact H2|]].
  exact (proj1 (proj2 (proj2 (proj2 (proj2 (proj2 (proj2
           (@C4_ready_queue_order epoch_codec))))))) _ _ _ H1 H2).
Defined.


(** C6 on [ex_overrun]: the running set itself stays within the bound. *)
Lemma C6_running_set_bound_witness :
  ex_run 2 None ex_overrun = Some (ex_state 2 None ex_overrun) /\
  Z.of_nat (List.length (running_tasks (ex_state 2 None ex_overrun))) <=
    Z.max 0 2.
Proof.
  assert (H : ex_run 2 None ex_overrun = Some (ex_state 2 None ex_overrun))
    by (vm_compute; reflexivity).
  split; [exact H|].
  exact (proj2 (proj2 (proj1 (@C6_running_set_bound epoch_codec) _ _ _ _ H))).
Defined.


(** C8 on a task that fails once and then completes. *)
Lemma C8_result_and_error_witness :
  result ex_flaky = PNone /\ error ex_flaky = None /\
  Forall failed_attempt [(Raised "boom", 10, 20)] /\
  status (attempt (Success (PInt 7), 25, 30)
            (attempts [(Raised "boom", 10, 20)] ex_flaky)) = Completed /\
  result (attempt (Success (PInt 7), 25, 30)
            (attempts [(Raised "boom", 10, 20)] ex_flaky)) = PInt 7 /\
  error (attempt (Success (PInt 7), 25, 30)
           (attempts [(Raised "boom", 10, 20)] ex_flaky)) <> None.
Proof.
  assert (H1 : result ex_flaky = PNone) by reflexivity.
  assert (H2 : error ex_flaky = None) by reflexivity.
  assert (H3 : Forall failed_attempt [(Raised "boom", 10, 20)]).
  { apply Forall_cons; [|apply Forall_nil].
    right. exists "boom". reflexivity. }
  split; [exact H1|split; [exact H2|split; [exact H3|]]].
  destruct (proj2 (proj2 (proj2 (proj2 (@C8_result_and_error epoch_codec))))
              ex_flaky [(Raised "boom", 10, 20)] (PInt 7) 25 30 H1 H2 H3)
    as (G1 & G2 & _ & G4).
  split; [exact G1|split; [exact G2|]].
  apply G4. discriminate.
Defined.

(** C9 on [ex_dispatch_unhandled]. *)
Lemma C9_no_handler_keeps_running_entry_witness :
  nth_error (coros (ex_state 5 None ex_dispatch_unhandled)) 0 =
    Some (mkCoro 0 Pending false) /\
  obj (ex_state 5 None ex_dispatch_unhandled) 0 = Some ex_mail /\
  dict_mem (handlers (ex_state 5 None ex_dispatch_unhandled))
    (task_type ex_mail) = false /\
  exists s' t',
    @execute_begin epoch_codec 0 10 (ex_state 5 None ex_dispatch_unhandled) =
      Some s' /\
    obj s' 0 = Some t' /\ status t' = Failed /\
    start_time t' = None /\ end_time t' = None /\
    running_tasks s' = [("t1", 0%nat)].
Proof.
  assert (H1 : nth_error (coros (ex_state 5 None ex_dispatch_unhandled)) 0 =
               Some (mkCoro 0 Pending false)) by (vm_compute; reflexivity).
  assert (H2 : obj (ex_state 5 None ex_dispatch_unhandled) 0 = Some ex_mail)
    by (vm_compute; reflexivity).
  assert (H3 : dict_mem (handlers (ex_state 5 None ex_dispatch_unhandled))
                 (task_type ex_mail) = false) by (vm_compute; reflexivity).
  split; [exact H1|split; [exact H2|split; [exact H3|]]].
  destruct (proj1 (@C9_no_handler_keeps_running_entry epoch_codec)
              _ 0%nat 10 _ _ H1 eq_refl eq_refl H2 H3)
    as (s' & t' & G1 & G2 & G3 & _ & G5 & G6 & G7 & _).
  exists s', t'. repeat split; auto.
Defined.



(** * Further properties of the code *)

(** ** Decoding a task *)

(** X1: [from_dict] on a dict that has the four mandatory keys and none of
    the others builds the task the constructor makes with its default
    values; on a dict that lacks one of the four mandatory keys it
    raises. *)
Theorem X1_from_dict_defaults {codec : IsoCodec} :
  (forall data id ty p st when,
      dict_get data "task_id" = Some (PStr id) ->
      dict_get data "task_type" = Some (PStr ty) ->
      dict_get data "params" = Some p ->
      dict_get data "schedule_time" = Some (PStr st) ->
      fromisoformat st = Some when ->
      (forall k, In k optional_keys -> dict_get data k = None) ->
      from_dict data = Some (new_Task id ty p when 1 3 300 3600 None)) /\
  (forall data k,
      In k mandatory_keys -> dict_get data k = None -> from_dict data = None).
Proof.
  split.
  - intros data id ty p st when H1 H2 H3 H4 H5 Hopt.
    unfold from_dict, dict_get_or. rewrite H1, H2, H3, H4. simpl.
    rewrite H5. simpl.
    rewrite !Hopt by (unfold optional_keys; simpl; tauto).
    reflexivity.
  - intros data k Hk Hnone. unfold from_dict.
    destruct Hk as [<-|[<-|[<-|[<-|[]]]]]; rewrite ?Hnone; simpl; auto;
      destruct (opt_bind (dict_get data "task_id") as_str); simpl; auto;
      rewrite ?Hnone; simpl; auto;
      destruct (opt_bind (dict_get data "task_type") as_str); simpl; auto;
      rewrite ?Hnone; simpl; auto;
      destruct (dict_get data "params"); simpl; auto;
      rewrite ?Hnone; simpl; auto.
Qed.

(** ** Loading the file *)



(** ** Retrying *)

Lemma attempt_failed (x : outcome * Z * Z) (t : Task) :
  failed_attempt x ->
  max_retries (attempt x t) = max_retries t /\
  retry_delay (attempt x t) = retry_delay t /\
  (retry_count t < max_retries t ->
   retry_count (attempt x t) = retry_count t + 1 /\
   status (attempt x t) = Scheduled /\
   schedule_time (attempt x t) = snd x + retry_delay t) /\
  (retry_count t >= max_retries t ->
   retry_count (attempt x t) = retry_count t /\
   status (attempt x t) = Failed).
Proof.
  destruct x as [[o b] e]. unfold failed_attempt. simpl.
  intros [->|[msg ->]]; simpl; unfold retry_or_fail; simpl;
    destruct (Z.ltb_spec (retry_count t) (max_retries t)); simpl;
    repeat split; intros; try lia; auto.
Qed.

Lemma attempts_count (xs : list (outcome * Z * Z)) (t : Task) :
  retry_count t = 0 -> 0 <= max_retries t -> Forall failed_attempt xs ->
  Z.of_nat (List.length xs) <= max_retries t + 1 ->
  max_retries (attempts xs t) = max_retries t /\
  retry_count (attempts xs t) = Z.min (Z.of_nat (List.length xs)) (max_retries t) /\
  (xs <> [] ->
   status (attempts xs t) =
   if Z.of_nat (List.length xs) <=? max_retries t then Scheduled else Failed).
Proof.
  intros H0 Hm. induction xs as [|x xs IH] using rev_ind; intros Hf Hlen.
  - simpl. split; [reflexivity|split; [lia|congruence]].
  - apply Forall_app in Hf. destruct Hf as [Hf Hx].
    inversion Hx as [|? ? Hx' _]; subst.
    rewrite length_app in *. simpl in *.
    destruct IH as (IH1 & IH2 & _); auto; [lia|].
    unfold attempts. rewrite fold_left_app. simpl. fold (attempts xs t).
    destruct (attempt_failed x (attempts xs t) Hx') as (A1 & _ & A3 & A4).
    split; [congruence|]. rewrite IH1, IH2 in *.
    destruct (Z.leb_spec (Z.of_nat (List.length xs + 1)) (max_retries t)).
    + destruct A3 as (B1 & B2 & _); [lia|]. split; [lia|auto].
    + destruct A4 as (B1 & B2); [lia|]. split; [lia|auto].
Qed.

(** X3: a new task whose handler fails every time is put back Scheduled
    with [retry_count] counting the failures as long as these are at most
    [max_retries], and fails for good at the next one, [retry_count]
    standing at [max_retries]. *)
Theorem X3_retries_exhaust (t : Task) (xs : list (outcome * Z * Z)) :
  retry_count t = 0 -> 0 <= max_retries t -> Forall failed_attempt xs ->
  (xs <> [] -> Z.of_nat (List.length xs) <= max_retries t ->
   status (attempts xs t) = Scheduled /\
   retry_count (attempts xs t) = Z.of_nat (List.length xs)) /\
  (Z.of_nat (List.length xs) = max_retries t + 1 ->
   status (attempts xs t) = Failed /\
   retry_count (attempts xs t) = max_retries t).
Proof.
  intros H0 Hm Hf. split.
  - intros Hne Hlen.
    destruct (attempts_count xs t H0 Hm Hf) as (_ & E & Hs); [lia|].
    specialize (Hs Hne).
    destruct (Z.leb_spec (Z.of_nat (List.length xs)) (max_retries t));
      [|lia]. split; [exact Hs|lia].
  - intros Hlen.
    destruct (attempts_count xs t H0 Hm Hf) as (_ & E & Hs); [lia|].
    assert (Hne : xs <> []) by (intros ->; simpl in Hlen; lia).
    specialize (Hs Hne).
    destruct (Z.leb_spec (Z.of_nat (List.length xs)) (max_retries t));
      [lia|]. split; [exact Hs|lia].
Qed.

(** ** Cancelling and scheduling *)

(** X4: cancelling the same id a second time returns [False] and changes
    nothing, whatever the first call did. *)
Theorem X4_cancel_twice {codec : IsoCodec} (s : Scheduler) (id : string) :
  cancel_task id (snd (cancel_task id s)) = (false, snd (cancel_task id s)).
Proof.
  destruct (fst (cancel_task id s)) eqn:E.
  - apply cancel_task_true in E. destruct E as (t & Hg & Hl).
    unfold get_task in Hg.
    destruct (dict_get (tasks s) id) as [a|] eqn:Hid; [|discriminate].
    simpl in Hg.
    destruct (cancel_task_effect s id a t Hid Hg Hl) as (_ & Ho & _ & Et & _).
    set (s1 := snd (cancel_task id s)) in *.
    unfold cancel_task at 1. unfold get_task. rewrite Et, Hid. simpl.
    rewrite Ho. reflexivity.
  - rewrite (cancel_task_false s id E).
    destruct (cancel_task id s) as [b s'] eqn:Ec. simpl in E. subst b.
    pose proof (cancel_task_false s id) as H. rewrite Ec in H.
    simpl in H. rewrite (H eq_refl). reflexivity.
Qed.




(** ** The dispatcher *)

Lemma pq_min_least (x : qitem) (q : list qitem) :
  (forall y, In y q -> qitem_leb x y = true) -> pq_min x q = (x, q).
Proof.
  induction q as [|y q IH]; simpl; intros H; auto.
  rewrite (H y) by auto. rewrite IH; auto.
Qed.

Lemma worker_requeues {codec : IsoCodec} (s : Scheduler) (now : Z)
    (m : qitem) (q : list qitem) (a : nat) (t : Task) :
  Z.of_nat (List.length (running_tasks s)) < max_concurrent_tasks s ->
  pq_get (task_queue s) = Some (m, q) ->
  dict_get (tasks s) (snd m) = Some a -> obj s a = Some t ->
  status t <> Cancelled -> now < schedule_time t ->
  worker now s = set_task_queue (qitem_of t (snd m) :: q) s.
Proof.
  intros Hcap Hget Hid Ho Hst Htm. unfold worker.
  destruct (Z.geb_spec (Z.of_nat (List.length (running_tasks s)))
              (max_concurrent_tasks s)); [lia|].
  rewrite Hget. destruct m as [k id]. simpl in *. rewrite Hid.
  unfold obj in *. simpl. rewrite Ho.
  destruct (String.eqb_spec (status t) Cancelled); [contradiction|].
  destruct (Z.gtb_spec (schedule_time t) now); [reflexivity|lia].
Qed.

(** X6: while the task of the least queued item is not due, the
    dispatcher starts nothing, however many iterations it makes and
    whatever else is queued: each iteration takes that item out and puts it
    back, leaving the scheduler as it was up to the order of the queue. *)
Theorem X6_not_due_blocks {codec : IsoCodec} (s : Scheduler) (m : qitem)
    (q : list qitem) (a : nat) (t : Task) (nows : list Z) :
  Z.of_nat (List.length (running_tasks s)) < max_concurrent_tasks s ->
  pq_get (task_queue s) = Some (m, q) ->
  dict_get (tasks s) (snd m) = Some a -> obj s a = Some t ->
  status t <> Cancelled -> m = qitem_of t (snd m) ->
  nows <> [] -> Forall (fun now => now < schedule_time t) nows ->
  workers nows s = set_task_queue (m :: q) s /\
  coros (workers nows s) = coros s /\
  Permutation (task_queue s) (task_queue (workers nows s)).
Proof.
  intros Hcap Hget Hid Ho Hst Hm Hne Hall.
  destruct (pq_get_spec _ _ _ Hget) as [HP Hmin].
  assert (Hleast : pq_get (m :: q) = Some (m, q)).
  { simpl. rewrite pq_min_least; auto.
    intros y Hy. apply Hmin. apply (Permutation_in _ (Permutation_sym HP)).
    right. exact Hy. }
  set (s1 := set_task_queue (m :: q) s).
  assert (Hfix : forall l, Forall (fun now => now < schedule_time t) l ->
                           workers l s1 = s1).
  { induction l as [|now l IH]; intros Hl; [reflexivity|].
    inversion Hl; subst. unfold workers in *. simpl.
    rewrite (worker_requeues s1 now m q a t); auto. rewrite <- Hm.
    apply IH. assumption. }
  assert (E : workers nows s = s1).
  { destruct nows as [|now l]; [congruence|].
    inversion Hall; subst. unfold workers. simpl.
    rewrite (worker_requeues s now m q a t); auto. rewrite <- Hm.
    apply Hfix. assumption. }
  rewrite E. split; [reflexivity|split; [reflexivity|exact HP]].
Qed.

(** X7: an iteration of the dispatcher never touches a task, the task
    set, the handlers or the file, and either starts nothing, or starts
    one supervisor, for a task of the task set that is not Cancelled and
    whose [schedule_time] has come, having found the running set below the
    limit, and records it there under the task's key. *)
Theorem X7_dispatch_conditions {codec : IsoCodec} (s : Scheduler) (now : Z) :
  objects (worker now s) = objects s /\ tasks (worker now s) = tasks s /\
  handlers (worker now s) = handlers s /\ storage (worker now s) = storage s /\
  callbacks (worker now s) = callbacks s /\ invoked (worker now s) = invoked s /\
  ((coros (worker now s) = coros s /\
    running_tasks (worker now s) = running_tasks s) \/
   exists id a t,
     dict_get (tasks s) id = Some a /\ obj s a = Some t /\
     status t <> Cancelled /\ schedule_time t <= now /\
     Z.of_nat (List.length (running_tasks s)) < max_concurrent_tasks s /\
     coros (worker now s) = (coros s ++ [mkCoro a Pending false])%list /\
     running_tasks (worker now s) =
       dict_set (running_tasks s) id (List.length (coros s))).
Proof.
  destruct (worker_objects now s) as (E1 & E2 & E3 & _ & E5 & E6 & E7 & _).
  repeat (split; [assumption|]).
  unfold worker.
  destruct (Z.geb_spec (Z.of_nat (List.length (running_tasks s)))
              (max_concurrent_tasks s)); [auto|].
  destruct (pq_get (task_queue s)) as [[[k id] q]|]; [|auto].
  simpl. destruct (dict_get (tasks s) id) as [a|] eqn:Hid; [|auto].
  unfold obj. simpl. destruct (nth_error (objects s) a) as [t|] eqn:Ho; [|auto].
  destruct (String.eqb_spec (status t) Cancelled); [auto|].
  destruct (Z.gtb_spec (schedule_time t) now); [auto|].
  right. exists id, a, t. simpl. repeat split; auto; lia.
Qed.

(** ** Identity of the tasks *)

Lemma settle_identity (o : outcome) (now : Z) (t : Task) :
  same_identity t (settle o now t).
Proof.
  destruct o as [v| |msg| ]; simpl; unfold retry_or_fail; simpl;
    try destruct (retry_count t <? max_retries t); repeat split.
Qed.

Lemma task_step_identity (s : Scheduler) (e : event) (a : nat) (t t' : Task) :
  task_step s e a t t' -> same_identity t t'.
Proof.
  assert (R : same_identity t t) by (repeat split).
  destruct e as [ty|t0|a0|id| |now|r now|r o now| | ]; simpl;
    try (intros ->; exact R).
  - intros [->|(_ & _ & ->)]; [exact R|repeat split].
  - intros [->|(c & _ & _ & _ & _ & [[_ ->]|[_ ->]])];
      [exact R|repeat split|repeat split].
  - intros [->|(c & _ & _ & _ & ->)]; [exact R|].
    apply (settle_identity o now t).
  - intros [-> | ->]; [exact R|repeat split].
Qed.

Lemma same_identity_trans (t1 t2 t3 : Task) :
  same_identity t1 t2 -> same_identity t2 t3 -> same_identity t1 t3.
Proof.
  unfold same_identity. intros H1 H2.
  decompose [and] H1. decompose [and] H2. repeat split; congruence.
Qed.

(** X8: no operation of the scheduler ever removes a task object or
    assigns its [task_id], [task_type], [params], [priority],
    [max_retries], [retry_delay], [timeout] or [callback_url]: along every
    run each task object stays in place with these attributes as they
    were. *)
Theorem X8_identity_kept {codec : IsoCodec} (tr : list event) :
  forall s s' a t,
    run s tr = Some s' -> obj s a = Some t ->
    exists t', obj s' a = Some t' /\ same_identity t t'.
Proof.
  induction tr as [|e tr IH]; simpl; intros s s' a t Hrun Ho.
  - injection Hrun as <-. exists t. split; [exact Ho|repeat split].
  - destruct (step s e) as [s1|] eqn:Hstep; [|discriminate]. simpl in Hrun.
    destruct (step_obj _ _ _ Hstep) as [Hold _].
    destruct (Hold _ _ Ho) as (t1 & Ho1 & Hts).
    destruct (IH _ _ _ _ Hrun Ho1) as (t' & Ho' & Hid).
    exists t'. split; [exact Ho'|].
    eapply same_identity_trans; [|exact Hid].
    eapply task_step_identity; eauto.
Qed.

(** ** The ids in the task set and in the queue *)

Section Ids.
Context {codec : IsoCodec}.

(** What a step does to [self.tasks] and what it may add to the queue. *)
Lemma step_tasks_queue (s s' : Scheduler) (e : event) :
  step s e = Some s' ->
  match e with
  | ESchedule t0 =>
      tasks s' = dict_set (tasks s) (task_id t0) (List.length (objects s)) /\
      task_queue s' = qitem_of t0 (task_id t0) :: task_queue s
  | EReschedule a0 =>
      exists t0, obj s a0 = Some t0 /\
                 tasks s' = dict_set (tasks s) (task_id t0) a0 /\
                 task_queue s' = qitem_of t0 (task_id t0) :: task_queue s
  | EWorker now =>
      tasks s' = tasks s /\
      forall x, In x (task_queue s') ->
                In x (task_queue s) \/
                exists id a t, dict_get (tasks s) id = Some a /\
                               obj s a = Some t /\ x = qitem_of t id
  | EEnd r o now =>
      tasks s' = tasks s /\
      forall x, In x (task_queue s') ->
                In x (task_queue s) \/
                exists c t, nth_error (coros s) r = Some c /\
                            obj s (c_task c) = Some t /\
                            x = qitem_of (settle o now t) (task_id t)
  | _ => tasks s' = tasks s /\ task_queue s' = task_queue s
  end.
Proof.
  destruct e as [ty|t0|a0|id| |now|r now|r o now| | ]; unfold step.
  - intros [= <-]. split; reflexivity.
  - unfold schedule_task, alloc. cbv beta iota.
    pose proof (obj_alloc_new s t0) as Hnew. simpl in Hnew. rewrite Hnew.
    simpl. intros [= <-]. split; reflexivity.
  - unfold schedule_task. destruct (obj s a0) as [t0|] eqn:Ho; [|discriminate].
    simpl. intros [= <-]. exists t0. repeat split.
  - intros [= <-]. unfold cancel_task.
    destruct (get_task s id) as [t0|]; [|split; reflexivity].
    destruct (dict_get (tasks s) id) as [a0|]; [|split; reflexivity].
    destruct ((status t0 =? Scheduled)%string || (status t0 =? Running)%string);
      [|split; reflexivity].
    simpl. destruct (dict_get (running_tasks s) id); split; reflexivity.
  - intros [= <-]. unfold start. destruct (is_running s); split; reflexivity.
  - destruct (is_running s); [|discriminate]. intros [= <-].
    split; [apply worker_objects|].
    unfold worker.
    destruct (_ >=? _); [auto|].
    destruct (pq_get (task_queue s)) as [[[k id] q]|] eqn:Hget; [|auto].
    destruct (pq_get_spec _ _ _ Hget) as [HP _].
    assert (Hq : forall x, In x q -> In x (task_queue s)).
    { intros x Hx. apply (Permutation_in _ (Permutation_sym HP)).
      right. exact Hx. }
    simpl. destruct (dict_get (tasks s) id) as [a|] eqn:Hid; [|auto].
    unfold obj. simpl.
    destruct (nth_error (objects s) a) as [t|] eqn:Ho; [|auto].
    destruct (status t =? Cancelled)%string; [auto|].
    destruct (schedule_time t >? now); simpl; [|auto].
    intros x [<-|Hx]; [|auto]. right. exists id, a, t. auto.
  - unfold execute_begin.
    destruct (nth_error (coros s) r) as [c|]; [|discriminate]. simpl.
    destruct (c_state c); try discriminate.
    destruct (c_cancel c); [intros [= <-]; split; reflexivity|].
    destruct (obj s (c_task c)) as [t0|]; [|discriminate]. simpl.
    destruct (dict_mem (handlers s) (task_type t0)); simpl;
      intros [= <-]; split; reflexivity.
  - unfold execute_end.
    destruct (nth_error (coros s) r) as [c|] eqn:Hc; [|discriminate]. simpl.
    destruct (c_state c); try discriminate.
    destruct (obj s (c_task c)) as [t0|] eqn:Ho; [|discriminate]. simpl.
    intros [= <-].
    assert (Hid : task_id (settle o now t0) = task_id t0)
      by apply (settle_identity o now t0).
    destruct (requeues o t0), (wants_callback (task_end o now t0)); simpl;
      (split; [reflexivity|]); auto;
      intros x [<-|Hx]; auto; right; exists c, t0; rewrite Hid; auto.
  - intros [= <-]. unfold shutdown, cancel_running.
    pose proof (cancel_running_fold (running_tasks (set_is_running false s))
                  (set_is_running false s)) as H.
    simpl in H. destruct H as (H1 & _ & H3 & _). simpl. auto.
  - intros [= <-]. split; reflexivity.
Qed.

Lemma dict_mem_set {V : Type} (d : dict V) (k k' : string) (v : V) :
  dict_mem d k' = true -> dict_mem (dict_set d k v) k' = true.
Proof.
  unfold dict_mem. destruct (String.eqb_spec k k') as [->|Hne].
  - rewrite dict_get_set_same. auto.
  - rewrite dict_get_set_other by auto. auto.
Qed.

Lemma dict_mem_set_same {V : Type} (d : dict V) (k : string) (v : V) :
  dict_mem (dict_set d k v) k = true.
Proof.
  unfold dict_mem. rewrite dict_get_set_same. reflexivity.
Qed.

Lemma step_ids_ok (s s' : Scheduler) (e : event) :
  step s e = Some s' -> ids_ok s -> ids_ok s'.
Proof.
  intros Hstep (Hb & Hk & Ho & Hq).
  destruct (step_obj _ _ _ Hstep) as [Hold Hnew].
  pose proof (step_tasks_queue _ _ _ Hstep) as Htq.
  assert (Hlen : forall a, (a < List.length (objects s))%nat ->
                           exists t t', obj s a = Some t /\ obj s' a = Some t' /\
                                        task_id t' = task_id t).
  { intros a Ha. apply nth_error_Some in Ha.
    destruct (obj s a) as [t|] eqn:E; [|unfold obj in E; congruence].
    destruct (Hold _ _ E) as (t' & E' & Hts).
    exists t, t'. repeat split; auto.
    apply (task_step_identity _ _ _ _ _ Hts). }
  (* the task set after the step *)
  assert (Htasks : tasks s' = tasks s \/
                   exists t0 a0, obj s' a0 = Some t0 /\
                                 tasks s' = dict_set (tasks s) (task_id t0) a0).
  { destruct e as [ty|t0|a0|id| |now|r now|r o now| | ];
      try (left; apply Htq).
    - right. exists t0, (List.length (objects s)). split; [|apply Htq].
      unfold step, schedule_task, alloc in Hstep. cbv beta iota in Hstep.
      pose proof (obj_alloc_new s t0) as Hn. simpl in Hn.
      rewrite Hn in Hstep. simpl in Hstep. injection Hstep as <-.
      exact Hn.
    - destruct Htq as (t0 & E0 & Et & _). right.
      destruct (Hold _ _ E0) as (t' & E' & Hts).
      exists t', a0. split; [exact E'|].
      rewrite Et. f_equal. symmetry.
      apply (task_step_identity _ _ _ _ _ Hts). }
  assert (Hmem : forall k, dict_mem (tasks s) k = true ->
                           dict_mem (tasks s') k = true).
  { intros k H. destruct Htasks as [->|(t0 & a0 & _ & ->)]; auto.
    apply dict_mem_set. exact H. }
  assert (Hb' : tasks_bound s').
  { intros id a. destruct Htasks as [->|(t0 & a0 & E0 & ->)].
    - intros H. apply Hb in H. destruct (Hlen a H) as (_ & t' & _ & E' & _).
      apply nth_error_Some. unfold obj in E'. congruence.
    - destruct (String.eqb_spec (task_id t0) id) as [->|Hne].
      + rewrite dict_get_set_same. intros [= <-].
        apply nth_error_Some. unfold obj in E0. congruence.
      + rewrite dict_get_set_other by auto. intros H. apply Hb in H.
        destruct (Hlen a H) as (_ & t' & _ & E' & _).
        apply nth_error_Some. unfold obj in E'. congruence. }
  assert (Hk' : keys_ok s').
  { intros id a t' Hid Hobj.
    assert (Hold' : dict_get (tasks s) id = Some a -> task_id t' = id).
    { intros H. destruct (Hlen a (Hb _ _ H)) as (t & t1 & E & E1 & Ei).
      assert (t1 = t') by congruence. subst t1.
      rewrite Ei. eapply Hk; eauto. }
    destruct Htasks as [Et|(t0 & a0 & E0 & Et)]; rewrite Et in Hid; auto.
    destruct (String.eqb_spec (task_id t0) id) as [Heq|Hne].
    - rewrite Heq, dict_get_set_same in Hid. injection Hid as <-. congruence.
    - rewrite dict_get_set_other in Hid by auto. auto. }
  assert (Ho' : objs_ok s').
  { intros a t' Hobj. destruct (obj s a) as [t|] eqn:E.
    - destruct (Hold _ _ E) as (t1 & E1 & Hts).
      assert (t1 = t') by congruence. subst t1.
      assert (Hi : task_id t' = task_id t)
        by apply (task_step_identity _ _ _ _ _ Hts).
      rewrite Hi. apply Hmem. eapply Ho; eauto.
    - pose proof (Hnew _ _ Hobj E) as He. subst e.
      destruct Htq as [-> _]. apply dict_mem_set_same. }
  split; [exact Hb'|split; [exact Hk'|split; [exact Ho'|]]].
  intros x Hx.
  assert (Hkeep : In x (task_queue s) ->
                  snd (fst x) = snd x /\ dict_mem (tasks s') (snd x) = true).
  { intros H. destruct (Hq x H). auto. }
  destruct e as [ty|t0|a0|id| |now|r now|r o now| | ];
    try solve [destruct Htq as [_ Eq]; rewrite Eq in Hx; auto].
  - destruct Htq as [Et Eq]. rewrite Eq in Hx. destruct Hx as [<-|Hx]; auto.
    simpl. split; auto. rewrite Et. apply dict_mem_set_same.
  - destruct Htq as (t0 & E0 & Et & Eq). rewrite Eq in Hx.
    destruct Hx as [<-|Hx]; auto.
    simpl. split; auto. rewrite Et. apply dict_mem_set_same.
  - destruct Htq as [Et Hin]. destruct (Hin x Hx) as [H|(id & a & t & Hid & E & ->)];
      auto. simpl. split; [eapply Hk; eauto|].
    apply Hmem. unfold dict_mem. rewrite Hid. reflexivity.
  - destruct Htq as [Et Hin].
    destruct (Hin x Hx) as [H|(c & t & Hc & E & ->)]; auto.
    simpl. split; [apply (settle_identity o now t)|].
    apply Hmem. eapply Ho; eauto.
Qed.

Lemma load_one_ids_ok (s : Scheduler) (kv : string * Task) :
  ids_ok s -> task_id (snd kv) = fst kv -> ids_ok (load_one s kv).
Proof.
  intros (Hb & Hk & Ho & Hq) Hid. destruct kv as [id t]. simpl in Hid. subst id.
  destruct (load_one_get s (task_id t, t) Hb) as [Hb' Hget].
  simpl in Hget.
  assert (Hobj : forall a t', obj (load_one s (task_id t, t)) a = Some t' ->
                              obj s a = Some t' \/
                              (a = List.length (objects s) /\ t' = t)).
  { intros a t'. unfold load_one, alloc, obj. simpl.
    destruct (status t =? Scheduled)%string; simpl;
      (destruct (Nat.lt_ge_cases a (List.length (objects s))) as [Hlt|Hge];
       [rewrite nth_error_app1 by lia; auto
       |rewrite nth_error_app2 by lia;
        destruct (a - List.length (objects s))%nat as [|n] eqn:En; simpl;
        [intros [= <-]; right; split; [lia|reflexivity]
        |destruct n; discriminate]]). }
  assert (Htasks : tasks (load_one s (task_id t, t)) =
                   dict_set (tasks s) (task_id t) (List.length (objects s))).
  { unfold load_one, alloc. simpl.
    destruct (status t =? Scheduled)%string; reflexivity. }
  assert (Hmem : forall k, dict_mem (tasks s) k = true ->
                           dict_mem (tasks (load_one s (task_id t, t))) k = true).
  { intros k H. rewrite Htasks. apply dict_mem_set. exact H. }
  split; [exact Hb'|split; [|split]].
  - intros id a t' Hd Hobj'. rewrite Htasks in Hd.
    destruct (String.eqb_spec (task_id t) id) as [Heq|Hne].
    + rewrite Heq, dict_get_set_same in Hd. injection Hd as <-.
      destruct (Hobj _ _ Hobj') as [H|[_ ->]]; auto.
      assert (Hlt : (List.length (objects s) < List.length (objects s))%nat)
        by (apply nth_error_Some; unfold obj in H; congruence).
      lia.
    + rewrite dict_get_set_other in Hd by auto.
      destruct (Hobj _ _ Hobj') as [H|[-> _]]; [eapply Hk; eauto|].
      apply Hb in Hd. lia.
  - intros a t' Hobj'. destruct (Hobj _ _ Hobj') as [H|[_ ->]].
    + apply Hmem. eapply Ho; eauto.
    + rewrite Htasks. apply dict_mem_set_same.
  - intros x Hx.
    assert (Hin : In x (task_queue s) \/ x = qitem_of t (task_id t)).
    { revert Hx. unfold load_one, alloc. simpl.
      destruct (status t =? Scheduled)%string; simpl; intuition. }
    destruct Hin as [H| ->].
    + destruct (Hq x H). auto.
    + simpl. split; auto. rewrite Htasks. apply dict_mem_set_same.
Qed.
End Ids.

Lemma run_ids_ok {codec : IsoCodec} (tr : list event) : forall s s',
  run s tr = Some s' -> ids_ok s -> ids_ok s'.
Proof.
  induction tr as [|e tr IH]; simpl; intros s s' Hrun Hok.
  - injection Hrun as <-. exact Hok.
  - destruct (step s e) as [s1|] eqn:Hstep; [|discriminate]. simpl in Hrun.
    apply (IH _ _ Hrun). eapply step_ids_ok; eauto.
Qed.

Lemma persisted_keys (s : Scheduler) :
  NoDup (dict_keys (tasks s)) -> keys_ok s ->
  Forall (fun kv => task_id (snd kv) = fst kv) (persisted s).
Proof.
  intros Hnd Hk. apply Forall_forall. intros [id t] Hin.
  unfold persisted in Hin. apply in_flat_map in Hin.
  destruct Hin as ([k a] & Hka & Hin).
  destruct (obj s a) as [t0|] eqn:Ho; [|destruct Hin].
  destruct Hin as [[= <- <-]|[]]. simpl.
  apply (Hk k a); auto. apply dict_get_In; auto.
Qed.

(** X9: in a scheduler created without a file, or on the file another one
    saved, and in every state it reaches from there, each key of the task
    set is the [task_id] of its task, and each queued item carries one id,
    which is a key of the task set: the dispatcher always finds the task of
    the item it takes out of the queue. *)
Theorem X9_ids_invariant {codec : IsoCodec} (laws : IsoCodecLaws codec) :
  (forall N, ids_ok (TaskScheduler_init N None)) /\
  (forall s N,
      NoDup (dict_keys (tasks s)) -> ids_ok s ->
      ids_ok (TaskScheduler_init N (storage (save_tasks s)))) /\
  (forall s tr s', run s tr = Some s' -> ids_ok s -> ids_ok s') /\
  (forall s m q,
      ids_ok s -> pq_get (task_queue s) = Some (m, q) ->
      exists a t,
        dict_get (tasks s) (snd m) = Some a /\ obj s a = Some t /\
        task_id t = snd m /\ snd (fst m) = snd m).
Proof.
  assert (Hempty : forall N file,
            ids_ok (mkScheduler [] [] [] N [] [] [] false file [] [])).
  { intros N file. repeat split; try (intros ? ? ?; discriminate).
    - intros a t H. unfold obj in H. simpl in H. destruct a; discriminate.
    - destruct H.
    - destruct H. }
  split; [intros N; apply Hempty|].
  split; [|split; [intros s tr s'; apply run_ids_ok|]].
  - intros s N Hnd Hok.
    unfold TaskScheduler_init, load_tasks. simpl.
    rewrite task_data_persisted, load_items_encoded.
    assert (Hfold : forall l e,
               ids_ok e ->
               Forall (fun kv => task_id (snd kv) = fst kv) l ->
               ids_ok (fold_left load_one l e)).
    { induction l as [|kv l IH]; intros e He Hall; simpl; auto.
      inversion Hall; subst. apply IH; auto. apply load_one_ids_ok; auto. }
    apply Hfold; [apply Hempty|].
    apply persisted_keys; [exact Hnd|exact (proj1 (proj2 Hok))].
  - intros s m q (Hb & Hk & _ & Hq) Hget.
    destruct (pq_get_spec _ _ _ Hget) as [HP _].
    assert (Hin : In m (task_queue s)).
    { apply (Permutation_in _ (Permutation_sym HP)). left. reflexivity. }
    destruct (Hq m Hin) as [E Hmem]. unfold dict_mem in Hmem.
    destruct (dict_get (tasks s) (snd m)) as [a|] eqn:Hid; [|discriminate].
    pose proof (Hb _ _ Hid) as Hlt. apply nth_error_Some in Hlt.
    destruct (obj s a) as [t|] eqn:Ho; [|unfold obj in Ho; congruence].
    exists a, t. repeat split; auto. eapply Hk; eauto.
Qed.

(** ** The file and the tasks *)

Section Synced.
Context {codec : IsoCodec}.



End Synced.


(** ** The end of a supervisor *)

Lemma dict_get_del_same {V : Type} (d : dict V) (k : string) :
  NoDup (dict_keys d) -> dict_get (dict_del d k) k = None.
Proof.
  induction d as [|[k' v'] d IH]; simpl; intros Hnd; auto.
  inversion Hnd as [|? ? Hnin Hnd']; subst.
  destruct (String.eqb_spec k' k) as [->|Hne].
  - destruct (dict_get d k) as [v|] eqn:Hg; auto.
    exfalso. apply Hnin. apply (dict_get_In d k v Hnd') in Hg.
    apply (in_map fst) in Hg. exact Hg.
  - simpl. destruct (String.eqb_spec k' k); [contradiction|]. auto.
Qed.

Lemma dict_get_del_other {V : Type} (d : dict V) (k k' : string) :
  k' <> k -> dict_get (dict_del d k) k' = dict_get d k'.
Proof.
  intros Hne. induction d as [|[k0 v0] d IH]; simpl; auto.
  destruct (String.eqb_spec k0 k) as [->|Hk].
  - destruct (String.eqb_spec k k'); [congruence|reflexivity].
  - simpl. rewrite IH. reflexivity.
Qed.

(** X11: cancelling a task that is Running returns True, marks it Cancelled
    and requests the cancellation of its supervisor; when the supervisor
    then ends on the cancellation, the task stays Cancelled and gets its
    end time, its slot in the running set is freed, the file is written,
    and neither a callback nor a retry follows. *)
Theorem X11_cancel_running {codec : IsoCodec} (s : Scheduler) (id : string)
    (a r : nat) (c : Coro) (t : Task) (now : Z) :
  NoDup (dict_keys (running_tasks s)) ->
  dict_get (tasks s) id = Some a -> obj s a = Some t ->
  status t = Running -> task_id t = id ->
  dict_get (running_tasks s) id = Some r ->
  nth_error (coros s) r = Some c -> c_task c = a -> c_state c = Waiting ->
  exists s1 s2,
    cancel_task id s = (true, s1) /\
    nth_error (coros s1) r = Some (mkCoro a Waiting true) /\
    execute_end r CancelledErr now s1 = Some s2 /\
    obj s2 a = Some (set_end_time (Some now) (set_status Cancelled t)) /\
    dict_get (running_tasks s2) id = None /\
    callbacks s2 = callbacks s /\
    task_queue s2 = task_queue s /\
    synced s2.
Proof.
  intros Hnd Hid Ho Hst Htid Hr Hc Hct Hcs.
  unfold cancel_task, get_task. rewrite Hid. simpl. rewrite Ho, Hst. simpl.
  rewrite Hr. eexists. eexists. split; [reflexivity|].
  assert (Hc1 : nth_error (list_update (coros s) r request_cancel) r =
                Some (mkCoro a Waiting true)).
  { rewrite nth_error_list_update, Nat.eqb_refl, Hc. simpl.
    unfold request_cancel. rewrite Hcs, Hct. reflexivity. }
  split; [exact Hc1|].
  unfold execute_end. simpl. rewrite Hc1. simpl.
  unfold obj in *. simpl.
  rewrite nth_error_list_update, Nat.eqb_refl, Ho. simpl.
  split; [reflexivity|].
  assert (Hw : wants_callback (task_end CancelledErr now (set_status Cancelled t))
               = false).
  { unfold wants_callback. simpl. destruct (callback_url t); auto.
    apply Bool.andb_false_r. }
  rewrite Hw. simpl.
  rewrite nth_error_list_update, Nat.eqb_refl.
  rewrite nth_error_list_update, Nat.eqb_refl, Ho. simpl.
  split; [reflexivity|].
  rewrite Htid. split; [apply dict_get_del_same; exact Hnd|].
  repeat split.
Qed.

(** X15: however the awaited handler call ends, the end of the supervisor
    stamps the end time on the task, leaves its start time, frees the slot
    of the task's id in the running set and no other, writes the file, and
    is final: the coroutine never takes another step. *)
Theorem X15_supervisor_end {codec : IsoCodec} (s : Scheduler) (r : nat)
    (o : outcome) (now : Z) (c : Coro) (t : Task) :
  NoDup (dict_keys (running_tasks s)) ->
  nth_error (coros s) r = Some c -> c_state c = Waiting ->
  obj s (c_task c) = Some t ->
  exists s' t',
    execute_end r o now s = Some s' /\
    obj s' (c_task c) = Some t' /\
    end_time t' = Some now /\ start_time t' = start_time t /\
    dict_get (running_tasks s') (task_id t) = None /\
    (forall id, id <> task_id t ->
                dict_get (running_tasks s') id = dict_get (running_tasks s) id) /\
    synced s' /\
    (forall now', execute_begin r now' s' = None) /\
    (forall o' now', execute_end r o' now' s' = None).
Proof.
  intros Hnd Hc Hcs Ho.
  assert (Hid : task_id (settle o now t) = task_id t).
  { destruct (settle_identity o now t) as [E _]. exact E. }
  assert (Hstart : start_time (task_end o now t) = start_time t).
  { destruct o as [v| |msg| ]; simpl; auto; unfold retry_or_fail; simpl;
      destruct (retry_count t <? max_retries t); reflexivity. }
  unfold execute_end. rewrite Hc. simpl. rewrite Hcs, Ho. simpl.
  eexists. exists (task_end o now t). split; [reflexivity|].
  assert (Hobj : nth_error (list_update (objects s) (c_task c) (task_end o now))
                   (c_task c) = Some (task_end o now t)).
  { rewrite nth_error_list_update, Nat.eqb_refl. unfold obj in Ho.
    rewrite Ho. reflexivity. }
  assert (Hfin : nth_error (list_update (coros s) r (set_cstate Finished)) r =
                 Some (set_cstate Finished c)).
  { rewrite nth_error_list_update, Nat.eqb_refl, Hc. reflexivity. }
  rewrite Hid.
  destruct (requeues o t), (wants_callback (task_end o now t));
    unfold obj, execute_begin, execute_end; simpl;
    rewrite ?Hobj, ?Hfin; simpl;
    (split; [reflexivity|split; [reflexivity|split; [exact Hstart|
     split; [apply dict_get_del_same; exact Hnd|
     split; [intros id Hne; apply dict_get_del_other; exact Hne|
     split; [reflexivity|split; reflexivity]]]]]]).
Qed.

(** ** Callbacks *)

Lemma step_callbacks {codec : IsoCodec} (s s' : Scheduler) (e : event) :
  step s e = Some s' ->
  callbacks s' = callbacks s \/
  exists r o now c t,
    e = EEnd r o now /\ nth_error (coros s) r = Some c /\
    c_state c = Waiting /\ obj s (c_task c) = Some t /\
    wants_callback (task_end o now t) = true /\
    obj s' (c_task c) = Some (task_end o now t) /\
    callbacks s' =
    (callbacks s ++ [(match callback_url t with Some u => u | None => "" end,
                      to_dict (task_end o now t))])%list.
Proof.
  destruct e as [ty|t0|a0|id| |now|r now|r o now| | ]; unfold step.
  - intros [= <-]. auto.
  - unfold schedule_task, alloc. cbv beta iota.
    pose proof (obj_alloc_new s t0) as Hnew. simpl in Hnew. rewrite Hnew.
    simpl. intros [= <-]. auto.
  - unfold schedule_task. destruct (obj s a0) as [t0|]; [|discriminate].
    simpl. intros [= <-]. auto.
  - intros [= <-]. unfold cancel_task.
    destruct (get_task s id) as [t0|]; [|auto].
    destruct (dict_get (tasks s) id) as [a0|]; [|auto].
    destruct ((status t0 =? Scheduled)%string || (status t0 =? Running)%string);
      [|auto].
    simpl. destruct (dict_get (running_tasks s) id); auto.
  - intros [= <-]. unfold start. destruct (is_running s); auto.
  - destruct (is_running s); [|discriminate]. intros [= <-].
    destruct (worker_objects now s) as (_ & _ & _ & _ & _ & E & _). auto.
  - unfold execute_begin.
    destruct (nth_error (coros s) r) as [c|]; [|discriminate]. simpl.
    destruct (c_state c); try discriminate.
    destruct (c_cancel c); [intros [= <-]; auto|].
    destruct (obj s (c_task c)) as [t0|]; [|discriminate]. simpl.
    destruct (dict_mem (handlers s) (task_type t0)); simpl;
      intros [= <-]; auto.
  - unfold execute_end.
    destruct (nth_error (coros s) r) as [c|] eqn:Hc; [|discriminate]. simpl.
    destruct (c_state c) eqn:Hcs; try discriminate.
    destruct (obj s (c_task c)) as [t0|] eqn:Ho; [|discriminate]. simpl.
    intros [= <-].
    assert (Hobj : nth_error (list_update (objects s) (c_task c) (task_end o now))
                     (c_task c) = Some (task_end o now t0)).
    { rewrite nth_error_list_update, Nat.eqb_refl. unfold obj in Ho.
      rewrite Ho. reflexivity. }
    assert (Hurl : callback_url (task_end o now t0) = callback_url t0).
    { destruct (settle_identity o now t0) as (_ & _ & _ & _ & _ & _ & _ & E).
      exact E. }
    destruct (wants_callback (task_end o now t0)) eqn:Hw.
    + right. exists r, o, now, c, t0. rewrite <- Hurl.
      destruct (requeues o t0); unfold obj; simpl; rewrite Hobj; auto 10.
    + left. destruct (requeues o t0); reflexivity.
  - intros [= <-]. unfold shutdown, cancel_running.
    pose proof (cancel_running_fold (running_tasks (set_is_running false s))
                  (set_is_running false s)) as H.
    simpl in H. destruct H as (_ & _ & _ & _ & _ & H6 & _). left. exact H6.
  - intros [= <-]. auto.
Qed.

Lemma wants_callback_spec (t : Task) :
  wants_callback t = true <->
  exists url, callback_url t = Some url /\ url <> ""%string /\
              (status t = Completed \/ status t = Failed).
Proof.
  unfold wants_callback. destruct (callback_url t) as [url|].
  - rewrite Bool.andb_true_iff, Bool.negb_true_iff, Bool.orb_true_iff.
    rewrite !String.eqb_eq, String.eqb_neq. split.
    + intros [H1 H2]. exists url. auto.
    + intros (u & [= <-] & H1 & H2). auto.
  - split; [discriminate|]. intros (u & H & _). discriminate.
Qed.

(** X12: a callback is posted only by the end of a supervisor, one per end,
    to the callback address of its task, which is not empty, the task having
    ended Completed or Failed; what is posted is the document of the task as
    the end left it, and decodes to that task.  A task with a callback
    address is notified when it completes and when it fails for good, not
    when the failed attempt is retried; a task without one never is. *)
Theorem X12_callbacks {codec : IsoCodec} (laws : IsoCodecLaws codec) :
  (forall s e s',
      step s e = Some s' ->
      callbacks s' = callbacks s \/
      exists r o now c t url,
        e = EEnd r o now /\ nth_error (coros s) r = Some c /\
        obj s (c_task c) = Some t /\
        callback_url t = Some url /\ url <> ""%string /\
        (status (task_end o now t) = Completed \/
         status (task_end o now t) = Failed) /\
        obj s' (c_task c) = Some (task_end o now t) /\
        callbacks s' = (callbacks s ++ [(url, to_dict (task_end o now t))])%list /\
        from_dict (to_dict (task_end o now t)) = Some (task_end o now t)) /\
  (forall s r o now c t s' url,
      nth_error (coros s) r = Some c -> obj s (c_task c) = Some t ->
      execute_end r o now s = Some s' ->
      callback_url t = Some url -> url <> ""%string ->
      ((exists v, o = Success v) \/
       (is_failure o /\ retry_count t >= max_retries t) ->
       callbacks s' = (callbacks s ++ [(url, to_dict (task_end o now t))])%list) /\
      (is_failure o -> retry_count t < max_retries t ->
       callbacks s' = callbacks s)) /\
  (forall s r o now c t s',
      nth_error (coros s) r = Some c -> obj s (c_task c) = Some t ->
      execute_end r o now s = Some s' ->
      callback_url t = None \/ callback_url t = Some ""%string ->
      callbacks s' = callbacks s).
Proof.
  split; [|split].
  - intros s e s' Hstep.
    destruct (step_callbacks _ _ _ Hstep)
      as [H|(r & o & now & c & t & -> & Hc & Hcs & Ho & Hw & Ho' & Hcb)];
      [left; exact H|right].
    apply wants_callback_spec in Hw. destruct Hw as (url & Hurl & Hne & Hst).
    assert (Hurl' : callback_url t = Some url).
    { destruct (settle_identity o now t) as (_ & _ & _ & _ & _ & _ & _ & E).
      simpl in Hurl. congruence. }
    exists r, o, now, c, t, url. rewrite Hurl' in Hcb.
    repeat (split; [assumption || reflexivity|]).
    apply from_dict_to_dict.
  - intros s r o now c t s' url Hc Ho Hend Hurl Hne.
    assert (Hstep : step s (EEnd r o now) = Some s') by exact Hend.
    assert (Hurl' : callback_url (task_end o now t) = Some url).
    { destruct (settle_identity o now t) as (_ & _ & _ & _ & _ & _ & _ & E).
      simpl. congruence. }
    destruct (step_callbacks _ _ _ Hstep)
      as [H|(r0 & o0 & now0 & c0 & t0 & [= <- <- <-] & Hc0 & _ & Ho0 & Hw & _ & Hcb)].
    + assert (Hw : wants_callback (task_end o now t) = false).
      { destruct (wants_callback (task_end o now t)) eqn:Hw; auto.
        exfalso. revert Hend H. unfold execute_end. rewrite Hc. simpl.
        destruct (c_state c); try discriminate. rewrite Ho. simpl. rewrite Hw.
        intros [= <-]. simpl.
        destruct (requeues o t); simpl; intros E;
          apply (f_equal (@List.length _)) in E;
          rewrite length_app in E; simpl in E; lia. }
      split; [|intros; exact H].
      intros Hcase. exfalso.
      assert (Hst : status (task_end o now t) = Completed \/
                    status (task_end o now t) = Failed).
      { destruct Hcase as [[v ->]|[[->|[msg ->]] Hge]]; simpl; auto;
          unfold retry_or_fail; simpl;
          destruct (Z.ltb_spec (retry_count t) (max_retries t)); auto; lia. }
      assert (wants_callback (task_end o now t) = true).
      { apply wants_callback_spec. exists url. auto. }
      congruence.
    + rewrite Hc in Hc0. injection Hc0 as <-. rewrite Ho in Ho0.
      injection Ho0 as <-. rewrite Hurl in Hcb.
      split; [intros _; exact Hcb|].
      intros Hf Hlt. exfalso.
      apply wants_callback_spec in Hw. destruct Hw as (u & _ & _ & Hst).
      destruct Hf as [->|[msg ->]]; simpl in Hst;
        unfold retry_or_fail in Hst; simpl in Hst;
        destruct (Z.ltb_spec (retry_count t) (max_retries t)); try lia;
        simpl in Hst; destruct Hst; discriminate.
  - intros s r o now c t s' Hc Ho Hend Hurl.
    assert (Hstep : step s (EEnd r o now) = Some s') by exact Hend.
    destruct (step_callbacks _ _ _ Hstep)
      as [H|(r0 & o0 & now0 & c0 & t0 & [= <- <- <-] & Hc0 & _ & Ho0 & Hw & _)];
      [exact H|].
    rewrite Hc in Hc0. injection Hc0 as <-. rewrite Ho in Ho0.
    injection Ho0 as <-. exfalso.
    apply wants_callback_spec in Hw. destruct Hw as (u & Hu & Hne & _).
    assert (callback_url t = Some u).
    { destruct (settle_identity o now t) as (_ & _ & _ & _ & _ & _ & _ & E).
      simpl in Hu. congruence. }
    destruct Hurl; congruence.
Qed.

(** ** Shutting down *)




(** ** Handlers *)

Lemma step_handlers {codec : IsoCodec} (s s' : Scheduler) (e : event) :
  step s e = Some s' ->
  handlers s' = handlers s \/
  exists ty, e = ERegister ty /\ handlers s' = dict_set (handlers s) ty tt.
Proof.
  destruct e as [ty|t0|a0|id| |now|r now|r o now| | ]; unfold step.
  - intros [= <-]. right. exists ty. auto.
  - unfold schedule_task, alloc. cbv beta iota.
    pose proof (obj_alloc_new s t0) as Hnew. simpl in Hnew. rewrite Hnew.
    simpl. intros [= <-]. auto.
  - unfold schedule_task. destruct (obj s a0) as [t0|]; [|discriminate].
    simpl. intros [= <-]. auto.
  - intros [= <-]. unfold cancel_task.
    destruct (get_task s id) as [t0|]; [|auto].
    destruct (dict_get (tasks s) id) as [a0|]; [|auto].
    destruct ((status t0 =? Scheduled)%string || (status t0 =? Running)%string);
      [|auto].
    simpl. destruct (dict_get (running_tasks s) id); auto.
  - intros [= <-]. unfold start. destruct (is_running s); auto.
  - destruct (is_running s); [|discriminate]. intros [= <-].
    destruct (worker_objects now s) as (_ & _ & E & _). auto.
  - unfold execute_begin.
    destruct (nth_error (coros s) r) as [c|]; [|discriminate]. simpl.
    destruct (c_state c); try discriminate.
    destruct (c_cancel c); [intros [= <-]; auto|].
    destruct (obj s (c_task c)) as [t0|]; [|discriminate]. simpl.
    destruct (dict_mem (handlers s) (task_type t0)); simpl;
      intros [= <-]; auto.
  - unfold execute_end.
    destruct (nth_error (coros s) r) as [c|]; [|discriminate]. simpl.
    destruct (c_state c); try discriminate.
    destruct (obj s (c_task c)) as [t0|]; [|discriminate]. simpl.
    intros [= <-].
    destruct (requeues o t0), (wants_callback (task_end o now t0)); auto.
  - intros [= <-]. unfold shutdown, cancel_running.
    pose proof (cancel_running_fold (running_tasks (set_is_running false s))
                  (set_is_running false s)) as H.
    simpl in H. destruct H as (_ & _ & _ & _ & _ & _ & _ & H8 & _).
    left. exact H8.
  - intros [= <-]. auto.
Qed.

Lemma run_handlers {codec : IsoCodec} (tr : list event) : forall s s' ty,
  run s tr = Some s' ->
  (dict_mem (handlers s) ty = true -> dict_mem (handlers s') ty = true) /\
  (dict_mem (handlers s') ty = true ->
   dict_mem (handlers s) ty = true \/ In (ERegister ty) tr).
Proof.
  induction tr as [|e tr IH]; simpl; intros s s' ty Hrun.
  - injection Hrun as <-. auto.
  - destruct (step s e) as [s1|] eqn:Hstep; [|discriminate]. simpl in Hrun.
    destruct (IH _ _ ty Hrun) as [IH1 IH2].
    destruct (step_handlers _ _ _ Hstep) as [E|(ty0 & -> & E)].
    + rewrite E in *. split; auto. intros H. destruct (IH2 H); auto.
    + split.
      * intros H. apply IH1. rewrite E. apply dict_mem_set. exact H.
      * intros H. destruct (IH2 H) as [H'|H']; auto.
        rewrite E in H'.
        destruct (String.eqb_spec ty0 ty) as [->|Hne]; auto.
        unfold dict_mem in H'. rewrite dict_get_set_other in H' by auto.
        left. exact H'.
Qed.

(** X14: a handler registered for a type stays registered through every
    operation, and a type has a handler only if it had one before or
    [register_handler] was called for it.  So, once the type of a task has a
    handler, a supervisor that starts on the task, not being cancelled,
    never fails it for lack of a handler: it marks it Running, stamps the
    start time and awaits the handler. *)
Theorem X14_handlers {codec : IsoCodec} (tr : list event)
    (s s' : Scheduler) (ty : string) :
  run s tr = Some s' ->
  (dict_mem (handlers s) ty = true -> dict_mem (handlers s') ty = true) /\
  (dict_mem (handlers s') ty = true ->
   dict_mem (handlers s) ty = true \/ In (ERegister ty) tr) /\
  (dict_mem (handlers s) ty = true \/ In (ERegister ty) tr ->
   forall r c t now,
     nth_error (coros s') r = Some c -> c_state c = Pending ->
     c_cancel c = false -> obj s' (c_task c) = Some t -> task_type t = ty ->
     exists s2,
       step s' (EBegin r now) = Some s2 /\
       obj s2 (c_task c) = Some (task_begin now t) /\
       status (task_begin now t) = Running /\
       start_time (task_begin now t) = Some now /\
       nth_error (coros s2) r = Some (set_cstate Waiting c) /\
       invoked s2 = (invoked s' ++ [c_task c])%list).
Proof.
  intros Hrun. destruct (run_handlers tr s s' ty Hrun) as [H1 H2].
  split; [exact H1|split; [exact H2|]].
  intros Hreg r c t now Hc Hcs Hcc Ho Hty.
  assert (Hh : dict_mem (handlers s') (task_type t) = true).
  { rewrite Hty. destruct Hreg as [H|H]; [auto|].
    clear H1 H2. revert s Hrun.
    induction tr as [|e tr IH]; [destruct H|]. simpl. intros s Hrun.
    destruct (step s e) as [s1|] eqn:Hstep; [|discriminate]. simpl in Hrun.
    destruct H as [->|H]; [|eapply IH; eauto].
    injection Hstep as <-.
    apply (proj1 (run_handlers tr _ s' ty Hrun)). simpl.
    apply dict_mem_set_same. }
  simpl. unfold execute_begin. rewrite Hc. simpl. rewrite Hcs, Hcc, Ho. simpl.
  rewrite Hh. simpl. eexists. split; [reflexivity|].
  unfold obj in *. simpl.
  rewrite !nth_error_list_update, !Nat.eqb_refl, Ho, Hc. simpl.
  repeat split.
Qed.

(** ** From scheduling to completion *)



(** ** The further properties at work on the example runs *)

(** X1 on a document with the mandatory keys only, and on one without
    [task_type]. *)
Lemma X1_from_dict_defaults_witness :
  @from_dict epoch_codec ex_minimal_doc =
    Some (new_Task "t9" "email" (PDict []) 0 1 3 300 3600 None) /\
  @from_dict epoch_codec [("task_id", PStr "t9")] = None.
Proof.
  split.
  - apply (proj1 (@X1_from_dict_defaults epoch_codec)
             ex_minimal_doc "t9" "email" (PDict []) "0" 0);
      try reflexivity.
    intros k Hk. unfold optional_keys in Hk. simpl in Hk.
    repeat (destruct Hk as [<-|Hk]; [reflexivity|]). destruct Hk.
  - apply (proj2 (@X1_from_dict_defaults epoch_codec)
             [("task_id", PStr "t9")] "task_type").
    + simpl. tauto.
    + reflexivity.
Defined.


(** X3 on [t2], which may be retried once and fails twice. *)
Lemma X3_retries_exhaust_witness :
  retry_count ex_flaky = 0 /\ 0 <= max_retries ex_flaky /\
  status (attempts [(Raised "boom", 1, 2); (TimedOut, 8, 9)] ex_flaky) = Failed /\
  retry_count (attempts [(Raised "boom", 1, 2); (TimedOut, 8, 9)] ex_flaky) = 1.
Proof.
  assert (H1 : retry_count ex_flaky = 0) by reflexivity.
  assert (H2 : 0 <= max_retries ex_flaky) by (simpl; lia).
  assert (H3 : Forall failed_attempt [(Raised "boom", 1, 2); (TimedOut, 8, 9)]).
  { apply Forall_cons; [right; exists "boom"; reflexivity|].
    apply Forall_cons; [left; reflexivity|apply Forall_nil]. }
  split; [exact H1|split; [exact H2|]].
  exact (proj2 (X3_retries_exhaust ex_flaky
                  [(Raised "boom", 1, 2); (TimedOut, 8, 9)] H1 H2 H3)
           eq_refl).
Defined.


(** X6 on a scheduler holding one task, due at 100, and the dispatcher
    running at 10 and at 20. *)
Lemma X6_not_due_blocks_witness :
  pq_get (task_queue (ex_state 5 None [ESchedule ex_late; EStart])) =
    Some (qitem_of ex_late "late", []) /\
  @workers epoch_codec [10; 20] (ex_state 5 None [ESchedule ex_late; EStart]) =
    set_task_queue [qitem_of ex_late "late"]
      (ex_state 5 None [ESchedule ex_late; EStart]) /\
  coros (@workers epoch_codec [10; 20]
           (ex_state 5 None [ESchedule ex_late; EStart])) =
    coros (ex_state 5 None [ESchedule ex_late; EStart]).
Proof.
  assert (H1 : Z.of_nat (List.length
                 (running_tasks (ex_state 5 None [ESchedule ex_late; EStart])))
               < max_concurrent_tasks (ex_state 5 None [ESchedule ex_late; EStart]))
    by (vm_compute; reflexivity).
  assert (H2 : pq_get (task_queue (ex_state 5 None [ESchedule ex_late; EStart])) =
               Some (qitem_of ex_late "late", [])) by (vm_compute; reflexivity).
  assert (H3 : dict_get (tasks (ex_state 5 None [ESchedule ex_late; EStart]))
                 (snd (qitem_of ex_late "late")) = Some 0%nat)
    by (vm_compute; reflexivity).
  assert (H4 : obj (ex_state 5 None [ESchedule ex_late; EStart]) 0 = Some ex_late)
    by (vm_compute; reflexivity).
  assert (H5 : status ex_late <> Cancelled) by (vm_compute; discriminate).
  assert (H6 : qitem_of ex_late "late" =
               qitem_of ex_late (snd (qitem_of ex_late "late"))) by reflexivity.
  assert (H7 : [10; 20] <> []) by discriminate.
  assert (H8 : Forall (fun now => now < schedule_time ex_late) [10; 20]).
  { apply Forall_cons; [simpl; lia|].
    apply Forall_cons; [simpl; lia|apply Forall_nil]. }
  split; [exact H2|].
  destruct (@X6_not_due_blocks epoch_codec
              (ex_state 5 None [ESchedule ex_late; EStart])
              (qitem_of ex_late "late") [] 0%nat ex_late [10; 20]
              H1 H2 H3 H4 H5 H6 H7 H8) as (E1 & E2 & _).
  split; [exact E1|exact E2].
Defined.

(** X8 on the first, failed attempt of [t2]. *)
Lemma X8_identity_kept_witness :
  obj (ex_state 5 None ex_flaky_scheduled) 0 = Some ex_flaky /\
  exists t',
    obj (ex_state 5 None (ex_flaky_scheduled ++ ex_flaky_first_attempt)) 0 =
      Some t' /\
    same_identity ex_flaky t'.
Proof.
  assert (H1 : @run epoch_codec (ex_state 5 None ex_flaky_scheduled)
                 ex_flaky_first_attempt =
               Some (ex_state 5 None
                       (ex_flaky_scheduled ++ ex_flaky_first_attempt)))
    by (vm_compute; reflexivity).
  assert (H2 : obj (ex_state 5 None ex_flaky_scheduled) 0 = Some ex_flaky)
    by (vm_compute; reflexivity).
  split; [exact H2|].
  exact (@X8_identity_kept epoch_codec ex_flaky_first_attempt
           (ex_state 5 None ex_flaky_scheduled)
           (ex_state 5 None (ex_flaky_scheduled ++ ex_flaky_first_attempt))
           0%nat ex_flaky H1 H2).
Defined.

(** X9 with the decimal codec, on the run in which [t2] fails, is retried
    and completes. *)
Lemma X9_ids_invariant_witness :
  ex_run 5 None ex_retry_then_complete =
    Some (ex_state 5 None ex_retry_then_complete) /\
  ids_ok (ex_state 5 None ex_retry_then_complete).
Proof.
  assert (H : ex_run 5 None ex_retry_then_complete =
              Some (ex_state 5 None ex_retry_then_complete))
    by (vm_compute; reflexivity).
  split; [exact H|].
  exact (proj1 (proj2 (proj2 (@X9_ids_invariant epoch_codec epoch_codec_laws)))
           (@TaskScheduler_init epoch_codec 5 None) ex_retry_then_complete
           (ex_state 5 None ex_retry_then_complete) H
           (proj1 (@X9_ids_invariant epoch_codec epoch_codec_laws) 5)).
Defined.


(** X11 on [a], cancelled while its handler is running. *)
Lemma X11_cancel_running_witness :
  obj (ex_state 1 None ex_before_crash) 0 = Some (task_begin 1 ex_a) /\
  dict_get (running_tasks (ex_state 1 None ex_before_crash)) "a" = Some 0%nat /\
  exists s1 s2,
    @cancel_task epoch_codec "a" (ex_state 1 None ex_before_crash) = (true, s1) /\
    @execute_end epoch_codec 0 CancelledErr 7 s1 = Some s2 /\
    obj s2 0 =
      Some (set_end_time (Some 7) (set_status Cancelled (task_begin 1 ex_a))) /\
    dict_get (running_tasks s2) "a" = None /\
    callbacks s2 = callbacks (ex_state 1 None ex_before_crash).
Proof.
  assert (H0 : NoDup (dict_keys (running_tasks (ex_state 1 None ex_before_crash)))).
  { vm_compute. apply NoDup_cons; [intros []|apply NoDup_nil]. }
  assert (H1 : dict_get (tasks (ex_state 1 None ex_before_crash)) "a" = Some 0%nat)
    by (vm_compute; reflexivity).
  assert (H2 : obj (ex_state 1 None ex_before_crash) 0 = Some (task_begin 1 ex_a))
    by (vm_compute; reflexivity).
  assert (H3 : status (task_begin 1 ex_a) = Running) by reflexivity.
  assert (H4 : task_id (task_begin 1 ex_a) = "a"%string) by reflexivity.
  assert (H5 : dict_get (running_tasks (ex_state 1 None ex_before_crash)) "a" =
               Some 0%nat) by (vm_compute; reflexivity).
  assert (H6 : nth_error (coros (ex_state 1 None ex_before_crash)) 0 =
               Some (mkCoro 0 Waiting false)) by (vm_compute; reflexivity).
  assert (H7 : c_task (mkCoro 0 Waiting false) = 0%nat) by reflexivity.
  assert (H8 : c_state (mkCoro 0 Waiting false) = Waiting) by reflexivity.
  split; [exact H2|split; [exact H5|]].
  destruct (@X11_cancel_running epoch_codec (ex_state 1 None ex_before_crash)
              "a" 0%nat 0%nat (mkCoro 0 Waiting false) (task_begin 1 ex_a) 7
              H0 H1 H2 H3 H4 H5 H6 H7 H8)
    as (s1 & s2 & E1 & _ & E3 & E4 & E5 & E6 & _).
  exists s1, s2.
  split; [exact E1|split; [exact E3|split; [exact E4|split; [exact E5|exact E6]]]].
Defined.

(** X12 with the decimal codec, on [t1] failing for good in its handler:
    its callback address gets the document of the failed task. *)
Lemma X12_callbacks_witness :
  @execute_end epoch_codec 0 (Raised "boom") 12
    (ex_state 5 None ex_mail_running) =
    Some (ex_state 5 None ex_handler_fails) /\
  callbacks (ex_state 5 None ex_handler_fails) =
    (callbacks (ex_state 5 None ex_mail_running) ++
     [("http://cb",
       @to_dict epoch_codec
         (task_end (Raised "boom") 12 (task_begin 10 ex_mail_once)))])%list.
Proof.
  assert (H1 : nth_error (coros (ex_state 5 None ex_mail_running)) 0 =
               Some (mkCoro 0 Waiting false)) by (vm_compute; reflexivity).
  assert (H2 : obj (ex_state 5 None ex_mail_running)
                 (c_task (mkCoro 0 Waiting false)) =
               Some (task_begin 10 ex_mail_once)) by (vm_compute; reflexivity).
  assert (H3 : @execute_end epoch_codec 0 (Raised "boom") 12
                 (ex_state 5 None ex_mail_running) =
               Some (ex_state 5 None ex_handler_fails))
    by (vm_compute; reflexivity).
  assert (H4 : callback_url (task_begin 10 ex_mail_once) = Some "http://cb"%string)
    by reflexivity.
  assert (H5 : "http://cb"%string <> ""%string) by discriminate.
  assert (H6 : is_failure (Raised "boom") /\
               retry_count (task_begin 10 ex_mail_once) >=
               max_retries (task_begin 10 ex_mail_once)).
  { split; [right; exists "boom"; reflexivity|simpl; lia]. }
  split; [exact H3|].
  exact (proj1 (proj1 (proj2 (@X12_callbacks epoch_codec epoch_codec_laws))
                  (ex_state 5 None ex_mail_running) 0%nat (Raised "boom") 12
                  (mkCoro 0 Waiting false) (task_begin 10 ex_mail_once)
                  (ex_state 5 None ex_handler_fails) "http://cb"
                  H1 H2 H3 H4 H5)
           (or_intror H6)).
Defined.

(** X14 on [t1], dispatched after a handler was registered for its type. *)
Lemma X14_handlers_witness :
  In (ERegister "email") ex_mail_dispatched /\
  dict_mem (handlers (ex_state 5 None ex_mail_dispatched)) "email" = true /\
  exists s2,
    @step epoch_codec (ex_state 5 None ex_mail_dispatched) (EBegin 0%nat 10) =
      Some s2 /\
    obj s2 0 = Some (task_begin 10 ex_mail) /\
    invoked s2 = (invoked (ex_state 5 None ex_mail_dispatched) ++ [0%nat])%list.
Proof.
  assert (H0 : ex_run 5 None ex_mail_dispatched =
               Some (ex_state 5 None ex_mail_dispatched))
    by (vm_compute; reflexivity).
  assert (H1 : In (ERegister "email") ex_mail_dispatched)
    by (left; reflexivity).
  assert (H2 : nth_error (coros (ex_state 5 None ex_mail_dispatched)) 0 =
               Some (mkCoro 0 Pending false)) by (vm_compute; reflexivity).
  assert (H3 : obj (ex_state 5 None ex_mail_dispatched)
                 (c_task (mkCoro 0 Pending false)) = Some ex_mail)
    by (vm_compute; reflexivity).
  destruct (@X14_handlers epoch_codec ex_mail_dispatched
              (@TaskScheduler_init epoch_codec 5 None)
              (ex_state 5 None ex_mail_dispatched) "email" H0)
    as (_ & G2 & G3).
  split; [exact H1|].
  split.
  - vm_compute. reflexivity.
  - destruct (G3 (or_intror H1) 0%nat (mkCoro 0 Pending false) ex_mail 10
                H2 eq_refl eq_refl H3 eq_refl)
      as (s2 & E1 & E2 & _ & _ & _ & E6).
    exists s2. split; [exact E1|split; [exact E2|exact E6]].
Defined.

(** X15 on the supervisor of [a], whose handler returns. *)
Lemma X15_supervisor_end_witness :
  nth_error (coros (ex_state 1 None ex_before_crash)) 0 =
    Some (mkCoro 0 Waiting false) /\
  exists s' t',
    @execute_end epoch_codec 0 (Success PNone) 2
      (ex_state 1 None ex_before_crash) = Some s' /\
    obj s' 0 = Some t' /\ end_time t' = Some 2 /\
    dict_get (running_tasks s') "a" = None /\
    @synced epoch_codec s' /\
    (forall o' now', @execute_end epoch_codec 0 o' now' s' = None).
Proof.
  assert (H0 : NoDup (dict_keys (running_tasks (ex_state 1 None ex_before_crash)))).
  { vm_compute. apply NoDup_cons; [intros []|apply NoDup_nil]. }
  assert (H1 : nth_error (coros (ex_state 1 None ex_before_crash)) 0 =
               Some (mkCoro 0 Waiting false)) by (vm_compute; reflexivity).
  assert (H2 : c_state (mkCoro 0 Waiting false) = Waiting) by reflexivity.
  assert (H3 : obj (ex_state 1 None ex_before_crash)
                 (c_task (mkCoro 0 Waiting false)) = Some (task_begin 1 ex_a))
    by (vm_compute; reflexivity).
  split; [exact H1|].
  destruct (@X15_supervisor_end epoch_codec (ex_state 1 None ex_before_crash)
              0%nat (Success PNone) 2 (mkCoro 0 Waiting false)
              (task_begin 1 ex_a) H0 H1 H2 H3)
    as (s' & t' & E1 & E2 & E3 & _ & E5 & _ & E7 & _ & E9).
  exists s', t'.
  split; [exact E1|split; [exact E2|split; [exact E3|split; [exact E5|
    split; [exact E7|exact E9]]]]].
Defined.


(** ** The queries *)

Lemma dict_get_none {V : Type} (d : dict V) (k : string) :
  dict_get d k = None <-> ~ In k (dict_keys d).
Proof.
  induction d as [|[k0 v0] d IH]; simpl.
  - tauto.
  - destruct (String.eqb_spec k0 k) as [->|Hne].
    + split; [discriminate|]. intros H. exfalso. apply H. auto.
    + rewrite IH. tauto.
Qed.

(** X17: in a scheduler whose keys are the ids of its tasks,
    [get_all_tasks] returns one task for each key of the task set, in the
    order of the keys and carrying that key as its id; [get_task] returns
    one of them, the one with the id asked for, and [None] exactly for an
    id that is no key; [get_tasks_by_status] returns those of them that
    have the status asked for. *)
Theorem X17_queries (s : Scheduler) :
  NoDup (dict_keys (tasks s)) -> ids_ok s ->
  map task_id (get_all_tasks s) = dict_keys (tasks s) /\
  (forall id t, get_task s id = Some t ->
                In t (get_all_tasks s) /\ task_id t = id) /\
  (forall id, get_task s id = None <-> ~ In id (dict_keys (tasks s))) /\
  (forall st t, In t (get_tasks_by_status s st) <->
                In t (get_all_tasks s) /\ status t = st).
Proof.
  intros Hnd (Hb & Hk & _ & _).
  assert (Hent : forall id a, In (id, a) (tasks s) ->
                              exists t, obj s a = Some t /\ task_id t = id).
  { intros id a Hin. apply (dict_get_In _ _ _ Hnd) in Hin.
    pose proof (Hb _ _ Hin) as Hlt. apply nth_error_Some in Hlt.
    destruct (obj s a) as [t|] eqn:Ho; [|unfold obj in Ho; congruence].
    exists t. split; [reflexivity|]. eapply Hk; eauto. }
  split; [|split; [|split]].
  - unfold get_all_tasks, dict_keys. clear Hnd.
    induction (tasks s) as [|[id a] l IH]; simpl; auto.
    destruct (Hent id a) as (t & Ho & Hid); [left; reflexivity|].
    rewrite Ho. simpl. rewrite Hid, IH; auto.
    intros id' a' Hin. apply Hent. right. exact Hin.
  - intros id t Hget. unfold get_task in Hget.
    destruct (dict_get (tasks s) id) as [a|] eqn:Hid; [|discriminate].
    simpl in Hget. split; [|eapply Hk; eauto].
    unfold get_all_tasks. apply in_flat_map. exists (id, a).
    split; [apply dict_get_In; auto|]. simpl. rewrite Hget. left. reflexivity.
  - intros id. rewrite <- dict_get_none. unfold get_task.
    destruct (dict_get (tasks s) id) as [a|] eqn:Hid; simpl; [|tauto].
    pose proof (Hb _ _ Hid) as Hlt. apply nth_error_Some in Hlt.
    unfold obj. split; [contradiction|discriminate].
  - intros st t. unfold get_tasks_by_status.
    rewrite filter_In, String.eqb_eq. tauto.
Qed.

(** X17 on [ex_two_ready], where [b] and [a] are scheduled in this order. *)
Lemma X17_queries_witness :
  map task_id (get_all_tasks (ex_state 5 None ex_two_ready)) = ["b"; "a"]%string /\
  (get_task (ex_state 5 None ex_two_ready) "zz" = None <->
   ~ In "zz"%string (dict_keys (tasks (ex_state 5 None ex_two_ready)))).
Proof.
  assert (Hrun : ex_run 5 None ex_two_ready =
                 Some (ex_state 5 None ex_two_ready))
    by (vm_compute; reflexivity).
  assert (H1 : NoDup (dict_keys (tasks (ex_state 5 None ex_two_ready)))).
  { exact (proj1 (@reachable_wf epoch_codec 5 None ex_two_ready
                    (ex_state 5 None ex_two_ready) Hrun)). }
  assert (H2 : ids_ok (ex_state 5 None ex_two_ready)).
  { apply (@run_ids_ok epoch_codec ex_two_ready
             (@TaskScheduler_init epoch_codec 5 None)
             (ex_state 5 None ex_two_ready) Hrun).
    repeat split; try (intros ? ? ?; discriminate).
    - intros a t H. destruct a; discriminate H.
    - destruct H.
    - destruct H. }
  destruct (X17_queries (ex_state 5 None ex_two_ready) H1 H2)
    as (E1 & _ & E3 & _).
  split; [exact E1|exact (E3 "zz"%string)].
Defined.
